(** * PRBills: billing-period resolver and its consumers

    A shallow embedding of the period logic of the bill tracker:
    - [App.getBillMonthYear] (App.tsx) and [BillHistory.formatPeriod]
      (BillHistory.tsx), the two copies of the period resolver;
    - [App.filteredBills], [BillHistory.groupedBills];
    - [ReportDashboard.chartData] with its helpers;
    - the optimistic handlers [App.handleToggleStatus] and
      [App.handleDelete].

    JavaScript strings are modelled as Rocq strings (sequences of 8-bit
    code units), numbers that the code uses as integers (timestamps,
    parsed groups, amounts) as [Z], with [None] standing for [NaN] where
    the code can produce it.  What ECMAScript leaves to the host
    (parsing of free-form dates, the local time zone, locale-dependent
    formatting) is a record [Env] that the definitions take as a
    parameter. *)

From Stdlib Require Import ZArith List String Ascii Bool Lia Arith.
From Stdlib Require Import Permutation Sorted DecimalString.
Import ListNotations.

Local Open Scope list_scope.
Local Open Scope string_scope.


(* ================================================================= *)
(** ** JavaScript strings *)

Module JSString.

Definition code (c : ascii) : nat := nat_of_ascii c.

Definition inRange (lo hi : nat) (c : ascii) : bool :=
  (lo <=? code c)%nat && (code c <=? hi)%nat.

(** [\d] : the ten ASCII digits. *)
Definition isDigit (c : ascii) : bool := inRange 48 57 c.

(** [[a-zA-Z]] *)
Definition isAsciiLetter (c : ascii) : bool :=
  inRange 65 90 c || inRange 97 122 c.

(** [String.prototype.toLowerCase] on one code unit: A-Z and the
    upper-case letters of Latin-1 move down by 32. *)
Definition toLowerChar (c : ascii) : ascii :=
  if inRange 65 90 c || inRange 192 214 c || inRange 216 222 c
  then ascii_of_nat (code c + 32) else c.

(** [String.prototype.toUpperCase] on one code unit.  The three
    Latin-1 letters whose upper-case form is not a single 8-bit code
    unit (181, 223, 255) are left as they are. *)
Definition toUpperChar (c : ascii) : ascii :=
  if inRange 97 122 c || inRange 224 246 c || inRange 248 254 c
  then ascii_of_nat (code c - 32) else c.

Fixpoint mapChars (f : ascii -> ascii) (s : string) : string :=
  match s with
  | EmptyString => EmptyString
  | String c s' => String (f c) (mapChars f s')
  end.

Definition toLowerCase : string -> string := mapChars toLowerChar.
Definition toUpperCase : string -> string := mapChars toUpperChar.

Fixpoint take (n : nat) (s : string) : string :=
  match n, s with
  | S k, String c s' => String c (take k s')
  | _, _ => EmptyString
  end.

Fixpoint drop (n : nat) (s : string) : string :=
  match n, s with
  | S k, String _ s' => drop k s'
  | _, _ => s
  end.

(** [s.substring(0, n)], [s.charAt(0)] and [s.slice(1)]. *)
Definition substring0 (n : nat) (s : string) : string := take n s.
Definition charAt0 (s : string) : string := take 1 s.
Definition slice1 (s : string) : string := drop 1 s.

Fixpoint startsWith (t s : string) : bool :=
  match t, s with
  | EmptyString, _ => true
  | String a t', String b s' => Ascii.eqb a b && startsWith t' s'
  | String _ _, EmptyString => false
  end.

(** [s.includes(t)] *)
Fixpoint includes (s t : string) : bool :=
  startsWith t s ||
  match s with
  | EmptyString => false
  | String _ s' => includes s' t
  end.

(** [s.split(sep)] for a one-character separator: never empty. *)
Fixpoint split (sep : ascii) (s : string) : list string :=
  match s with
  | EmptyString => [EmptyString]
  | String c s' =>
      if Ascii.eqb c sep then EmptyString :: split sep s'
      else match split sep s' with
           | [] => [String c EmptyString]
           | p :: ps => String c p :: ps
           end
  end.

(** [s.replace(/[class]/g, '')] for a one-character class. *)
Fixpoint removeChars (p : ascii -> bool) (s : string) : string :=
  match s with
  | EmptyString => EmptyString
  | String c s' => if p c then removeChars p s' else String c (removeChars p s')
  end.

Fixpoint allLetters (s : string) : bool :=
  match s with
  | EmptyString => true
  | String c s' => isAsciiLetter c && allLetters s'
  end.

(** The 256 code units. *)
Definition allAscii : list ascii := map ascii_of_nat (seq 0 256).

(** Truthiness of a string, and [x || d] on an optional string
    ([None] is [undefined] or [null]). *)
Definition truthy (s : string) : bool :=
  match s with EmptyString => false | _ => true end.

Definition orElse (x : option string) (d : string) : string :=
  match x with
  | Some s => if truthy s then s else d
  | None => d
  end.

End JSString.

(* ================================================================= *)
(** ** Regular expressions

    The patterns of the program use character classes, literals,
    concatenation, alternation, bounded greedy repetition and capture
    groups.  For this fragment the ECMAScript backtracking matcher is
    the first element of the list of all ways to match, enumerated in
    priority order (left alternative first, longer repetition first). *)

Module RegExp.
Import JSString.

Inductive regex : Type :=
| RChar (p : ascii -> bool)
| REmpty
| RSeq (r1 r2 : regex)
| RAlt (r1 r2 : regex)
| RGroup (n : nat) (r : regex).

Definition caps : Type := list (nat * string).

(** One way to match: the text consumed, the rest of the input, and
    the groups that took part. *)
Definition outcome : Type := (string * string * caps)%type.

Fixpoint outs (r : regex) (s : string) : list outcome :=
  match r with
  | RChar p =>
      match s with
      | String c s' => if p c then [(String c EmptyString, s', [])] else []
      | EmptyString => []
      end
  | REmpty => [(EmptyString, s, [])]
  | RSeq r1 r2 =>
      flat_map
        (fun o1 : outcome =>
           let '(m1, s1, c1) := o1 in
           map (fun o2 : outcome =>
                  let '(m2, s2, c2) := o2 in (m1 ++ m2, s2, (c1 ++ c2)%list))
               (outs r2 s1))
        (outs r1 s)
  | RAlt r1 r2 => (outs r1 s ++ outs r2 s)%list
  | RGroup n r =>
      map (fun o : outcome => let '(m, s', c) := o in (m, s', (n, m) :: c))
          (outs r s)
  end.

Record matchResult : Type := MatchResult {
  index : nat;
  matched : string;
  groups : caps
}.

(** [RegExp.prototype.exec] without the [g] flag: the first start
    position, from the left, at which the pattern matches. *)
Fixpoint execFrom (r : regex) (i : nat) (s : string) : option matchResult :=
  match outs r s with
  | (m, _, c) :: _ => Some (MatchResult i m c)
  | [] =>
      match s with
      | EmptyString => None
      | String _ s' => execFrom r (S i) s'
      end
  end.

(** [s.match(r)] *)
Definition exec (r : regex) (s : string) : option matchResult :=
  execFrom r 0 s.

(** [m[n]] for a group that took part in the match. *)
Fixpoint group (n : nat) (c : caps) : string :=
  match c with
  | [] => EmptyString
  | (k, v) :: c' => if Nat.eqb k n then v else group n c'
  end.

(** Pattern builders. *)
Definition chr (c : ascii) : regex := RChar (Ascii.eqb c).

(** A literal character under the [i] flag: both sides are
    canonicalised with [toUpperCase]; a code unit of 128 or more is
    never folded onto an ASCII one. *)
Definition chrI (c : ascii) : regex :=
  RChar (fun x => Ascii.eqb (toUpperChar x) (toUpperChar c)).

Fixpoint lit (mk : ascii -> regex) (w : string) : regex :=
  match w with
  | EmptyString => REmpty
  | String c w' => RSeq (mk c) (lit mk w')
  end.

Fixpoint alts (rs : list regex) : regex :=
  match rs with
  | [] => RChar (fun _ => false)
  | [r] => r
  | r :: rs' => RAlt r (alts rs')
  end.

Fixpoint times (n : nat) (r : regex) : regex :=
  match n with
  | O => REmpty
  | S k => RSeq r (times k r)
  end.

Fixpoint upTo (n : nat) (r : regex) : regex :=
  match n with
  | O => REmpty
  | S k => RAlt (RSeq r (upTo k r)) REmpty
  end.

(** [r{lo,hi}], greedy. *)
Definition range (lo hi : nat) (r : regex) : regex :=
  RSeq (times lo r) (upTo (hi - lo) r).

Definition digit : regex := RChar isDigit.

(** [Matches r m c]: the text [m] is in the language of [r], with
    [c] the groups that take part. *)
Inductive Matches : regex -> string -> caps -> Prop :=
| MChar p c : p c = true -> Matches (RChar p) (String c EmptyString) []
| MEmpty : Matches REmpty EmptyString []
| MSeq r1 r2 m1 m2 c1 c2 :
    Matches r1 m1 c1 -> Matches r2 m2 c2 ->
    Matches (RSeq r1 r2) (m1 ++ m2) (c1 ++ c2)%list
| MAltL r1 r2 m c : Matches r1 m c -> Matches (RAlt r1 r2) m c
| MAltR r1 r2 m c : Matches r2 m c -> Matches (RAlt r1 r2) m c
| MGroup n r m c : Matches r m c -> Matches (RGroup n r) m ((n, m) :: c).

End RegExp.

(* ================================================================= *)
(** ** Numbers and dates *)

Module JSNumber.
Import JSString.

(** A number the program uses as an integer; [None] is [NaN]. *)
Definition number : Type := option Z.

(** White space that [parseInt] skips (the 8-bit part of it). *)
Definition isWhiteSpace (c : ascii) : bool :=
  inRange 9 13 c || Nat.eqb (code c) 32 || Nat.eqb (code c) 160.

Fixpoint trimStart (s : string) : string :=
  match s with
  | String c s' => if isWhiteSpace c then trimStart s' else s
  | EmptyString => EmptyString
  end.

Definition digitValue (radix : Z) (c : ascii) : option Z :=
  let v :=
    if isDigit c then Some (Z.of_nat (code c) - 48)%Z
    else if inRange 97 122 c then Some (Z.of_nat (code c) - 87)%Z
    else if inRange 65 90 c then Some (Z.of_nat (code c) - 55)%Z
    else None in
  match v with
  | Some d => if (d <? radix)%Z then Some d else None
  | None => None
  end.

(** Value of the longest prefix of radix digits; [acc] is [None]
    until a digit has been read. *)
Fixpoint digitsPrefix (radix : Z) (s : string) (acc : number) : number :=
  match s with
  | String c s' =>
      match digitValue radix c with
      | Some d =>
          digitsPrefix radix s'
            (Some (radix * match acc with Some a => a | None => 0 end + d)%Z)
      | None => acc
      end
  | EmptyString => acc
  end.

(** [parseInt(s)] with no radix argument. *)
Definition parseInt (s : string) : number :=
  let s0 := trimStart s in
  let '(sign, s1) :=
    match s0 with
    | String "-" r => ((-1)%Z, r)
    | String "+" r => (1%Z, r)
    | _ => (1%Z, s0)
    end in
  let '(radix, s2) :=
    match s1 with
    | String "0" (String "x" r) => (16%Z, r)
    | String "0" (String "X" r) => (16%Z, r)
    | _ => (10%Z, s1)
    end in
  match digitsPrefix radix s2 None with
  | Some v => Some (sign * v)%Z
  | None => None
  end.

(** [String(n)] / template interpolation of an integer (decimal
    notation, which JavaScript uses below 10^21). *)
Definition numberToString (n : number) : string :=
  match n with
  | Some z => NilZero.string_of_int (Z.to_int z)
  | None => "NaN"
  end.

(** [a <= n && n <= b]; false for [NaN]. *)
Definition between (a b : Z) (n : number) : bool :=
  match n with
  | Some z => (a <=? z)%Z && (z <=? b)%Z
  | None => false
  end.

End JSNumber.

Module JSDate.

(** The greatest magnitude of a time value: 8.64e15 ms. *)
Definition maxTime : Z := 8640000000000000.

(** [new Date(ms)]: [None] is the invalid date. *)
Definition timeClip (ms : Z) : option Z :=
  if (Z.abs ms <=? maxTime)%Z then Some ms else None.

(** The host: what the program obtains from [Date] and that
    ECMAScript does not fix.
    - [dateParse s] is the time value of [new Date(s)], [None] when
      it is invalid;
    - [fullYear t] is [getFullYear()] of a valid time value, in the
      local time zone;
    - [monthYear t] is
      [toLocaleString('default', {month: 'short', year: 'numeric'})]
      of a valid time value, in the default locale. *)
Record Env : Type := MkEnv {
  dateParse : string -> option Z;
  fullYear : Z -> Z;
  monthYear : Z -> string
}.

(** [new Date(ms).getFullYear().toString()] *)
Definition fullYearString (env : Env) (ms : Z) : string :=
  JSNumber.numberToString (option_map (fullYear env) (timeClip ms)).

(** [new Date(ms).toLocaleString('default', ...)] *)
Definition monthYearString (env : Env) (ms : Z) : string :=
  match timeClip ms with
  | Some t => monthYear env t
  | None => "Invalid Date"
  end.

End JSDate.

(* ================================================================= *)
(** ** types.ts *)

Inductive BillStatus : Type := paid | unpaid.

Definition BillStatus_eqb (a b : BillStatus) : bool :=
  match a, b with
  | paid, paid | unpaid, unpaid => true
  | _, _ => false
  end.

Record BillRecord : Type := MkBill {
  id : string;
  billName : string;
  dateOfPeriod : string;
  dueDate : option string;
  amount : Z;
  currency : string;
  summary : option string;
  createdAt : Z;
  status : BillStatus
}.

Definition setStatus (b : BillRecord) (s : BillStatus) : BillRecord :=
  MkBill (id b) (billName b) (dateOfPeriod b) (dueDate b) (amount b)
         (currency b) (summary b) (createdAt b) s.

(* ================================================================= *)
(** ** Objects used as maps, and [Array.prototype.sort] *)

Module JSObject.
Import JSString JSNumber.

(** The property names every object literal inherits from
    [Object.prototype]. *)
Definition protoKeys : list string :=
  [ "constructor"; "__defineGetter__"; "__defineSetter__";
    "hasOwnProperty"; "__lookupGetter__"; "__lookupSetter__";
    "isPrototypeOf"; "propertyIsEnumerable"; "toString"; "valueOf";
    "__proto__"; "toLocaleString" ].

Definition inherited (k : string) : bool :=
  existsb (String.eqb k) protoKeys.

(** Own properties, in creation order. *)
Definition object (V : Type) : Type := list (string * V).

Fixpoint getOwn {V} (o : object V) (k : string) : option V :=
  match o with
  | [] => None
  | (k', v) :: o' => if String.eqb k' k then Some v else getOwn o' k
  end.

(** [o[k] = v]: an existing property keeps its place. *)
Fixpoint setOwn {V} (o : object V) (k : string) (v : V) : object V :=
  match o with
  | [] => [(k, v)]
  | (k', v') :: o' =>
      if String.eqb k' k then (k', v) :: o' else (k', v') :: setOwn o' k v
  end.

Fixpoint allDigits (s : string) : bool :=
  match s with
  | EmptyString => true
  | String c s' => isDigit c && allDigits s'
  end.

(** An array index: the canonical decimal form of an integer in
    [0, 2^32 - 2]. *)
Definition arrayIndex (k : string) : option Z :=
  match k with
  | EmptyString => None
  | String c r =>
      if allDigits k && (negb (Ascii.eqb c "0") || negb (truthy r)) then
        match digitsPrefix 10 k None with
        | Some v => if (v <=? 4294967294)%Z then Some v else None
        | None => None
        end
      else None
  end.

Fixpoint insertIndex {V} (n : Z) (e : string * V) (l : list (Z * (string * V)))
  : list (Z * (string * V)) :=
  match l with
  | [] => [(n, e)]
  | (m, e') :: l' =>
      if (n <? m)%Z then (n, e) :: (m, e') :: l'
      else (m, e') :: insertIndex n e l'
  end.

(** The index-named properties of [o] in ascending numeric order, and
    the others in creation order. *)
Fixpoint partitionKeys {V} (o : object V)
  : list (Z * (string * V)) * list (string * V) :=
  match o with
  | [] => ([], [])
  | (k, v) :: o' =>
      let '(ix, rest) := partitionKeys o' in
      match arrayIndex k with
      | Some n => (insertIndex n (k, v) ix, rest)
      | None => (ix, (k, v) :: rest)
      end
  end.

(** [Object.entries(o)] *)
Definition entries {V} (o : object V) : list (string * V) :=
  let '(ix, rest) := partitionKeys o in (map snd ix ++ rest)%list.

(** [Array.prototype.sort(cmp)], as the stable insertion sort: an
    element moves left past the elements it compares strictly below.
    A comparison result of [NaN] counts as 0.  For a comparator that
    is not a consistent ordering ECMAScript leaves the order to the
    implementation; the result is a permutation in any case. *)
Fixpoint insertBy {A} (cmp : A -> A -> Z) (x : A) (l : list A) : list A :=
  match l with
  | [] => [x]
  | y :: l' =>
      if (cmp x y <=? 0)%Z then x :: y :: l' else y :: insertBy cmp x l'
  end.

Definition sortBy {A} (cmp : A -> A -> Z) (l : list A) : list A :=
  fold_right (insertBy cmp) [] l.

End JSObject.

(* ================================================================= *)
(** ** App.tsx *)

Module App.
Import JSString JSNumber JSDate RegExp.

Inductive FilterStatus : Type := FilterAll | FilterOnly (s : BillStatus).
Inductive ViewType : Type := TabBills | TabUpload | TabReport.

Definition months : list string :=
  ["Jan"; "Feb"; "Mar"; "Apr"; "May"; "Jun";
   "Jul"; "Aug"; "Sep"; "Oct"; "Nov"; "Dec"].

Definition fullMonths : list string :=
  ["January"; "February"; "March"; "April"; "May"; "June"; "July";
   "August"; "September"; "October"; "November"; "December"].

(** [/(\d{1,2})[\/\-](\d{1,2})[\/\-](\d{4})/] *)
Definition separator : regex :=
  RChar (fun c => Ascii.eqb c "/" || Ascii.eqb c "-").

Definition numericPattern : regex :=
  RSeq (RGroup 1 (range 1 2 digit))
    (RSeq separator
       (RSeq (RGroup 2 (range 1 2 digit))
          (RSeq separator (RGroup 3 (range 4 4 digit))))).

(** [/20[2-3]\d/] *)
Definition yearPattern : regex :=
  RSeq (chr "2") (RSeq (chr "0") (RSeq (RChar (inRange 50 51)) digit)).

(** [new RegExp(`(${months.join('|')}|January|...|December)`, 'i')] *)
Definition monthPattern : regex :=
  RGroup 1 (alts (map (lit chrI) (months ++ fullMonths)%list)).

(** [months[i]] inside a template string. *)
Definition monthAt (n : number) : string :=
  match n with
  | Some z => nth (Z.to_nat z) months "undefined"
  | None => "undefined"
  end.

Definition minus1 (n : number) : number := option_map (fun z => z - 1)%Z n.

(** 1. Numeric date pattern, day/month/year assumed. *)
Definition numericKey (period : string) : option string :=
  match exec numericPattern period with
  | Some numericMatch =>
      let p2 := parseInt (group 2 (groups numericMatch)) in
      let p3 := parseInt (group 3 (groups numericMatch)) in
      if between 1 12 p2
      then Some (monthAt (minus1 p2) ++ " " ++ numberToString p3)
      else None
  | None => None
  end.

(** 2. Text search for month + year: the year ... *)
Definition textYear (env : Env) (text : string) (created : Z) : string :=
  match exec yearPattern text with
  | Some yearMatch => matched yearMatch
  | None => fullYearString env created
  end.

(** ... and the month, full or short. *)
Definition textualKey (text year : string) : option string :=
  match exec monthPattern text with
  | Some monthMatch =>
      let shortMonth := substring0 3 (matched monthMatch) in
      let normalized :=
        toUpperCase (charAt0 shortMonth) ++ toLowerCase (slice1 shortMonth) in
      if existsb (String.eqb normalized) months
      then Some (normalized ++ " " ++ year)
      else None
  | None => None
  end.

(** 3. Fallback: [dateOfPeriod] parsed as a standard date. *)
Definition parsedKey (env : Env) (period : string) : option string :=
  match dateParse env period with
  | Some t => if (fullYear env t >? 2000)%Z then Some (monthYear env t) else None
  | None => None
  end.

(** Helper to extract "Month Year" from bill data.  Each step is reached only when
    the ones before it returned nothing; 4. is the upload date. *)
Definition getBillMonthYear (env : Env) (bill : BillRecord) : string :=
  let text := dateOfPeriod bill ++ " " ++ orElse (dueDate bill) "" in
  match numericKey (dateOfPeriod bill) with
  | Some key => key
  | None =>
      let year := textYear env text (createdAt bill) in
      match textualKey text year with
      | Some key => key
      | None =>
          match parsedKey env (dateOfPeriod bill) with
          | Some key => key
          | None => monthYearString env (createdAt bill)
          end
      end
  end.

(** Filter logic.  [bill.summary && ...] is falsy for a missing or
    empty summary. *)
Definition matchesSearch (searchTerm : string) (bill : BillRecord) : bool :=
  includes (toLowerCase (billName bill)) (toLowerCase searchTerm)
  || match summary bill with
     | Some s => truthy s && includes (toLowerCase s) (toLowerCase searchTerm)
     | None => false
     end.

Definition matchesStatus (filterStatus : FilterStatus) (bill : BillRecord) : bool :=
  match filterStatus with
  | FilterAll => true
  | FilterOnly s => BillStatus_eqb (status bill) s
  end.

Definition matchesMonth (env : Env) (filterMonth : string) (bill : BillRecord) : bool :=
  String.eqb filterMonth "all" || String.eqb (getBillMonthYear env bill) filterMonth.

Definition filteredBills (env : Env) (bills : list BillRecord)
    (searchTerm : string) (filterStatus : FilterStatus) (filterMonth : string)
  : list BillRecord :=
  filter (fun bill =>
            matchesSearch searchTerm bill
            && matchesStatus filterStatus bill
            && matchesMonth env filterMonth bill)
         bills.

(** The part of the component state the handlers read and write. *)
Record State : Type := MkState {
  bills : list BillRecord;
  selectedBill : option BillRecord;
  activeTab : ViewType;
  isDbMissing : bool
}.

(** What the record store answers when it is called. *)
Inductive StoreOutcome : Type := StoreOk | StoreFails.

Definition toggled (currentStatus : BillStatus) : BillStatus :=
  match currentStatus with paid => unpaid | unpaid => paid end.

Definition withStatus (target : string) (s : BillStatus) (b : BillRecord) : BillRecord :=
  if String.eqb (id b) target then setStatus b s else b.

Definition selectedWithStatus (target : string) (s : BillStatus)
    (sel : option BillRecord) : option BillRecord :=
  match sel with
  | Some b => if String.eqb (id b) target then Some (setStatus b s) else sel
  | None => None
  end.

(** The state after the optimistic update of [handleToggleStatus]. *)
Definition toggleOptimistic (st : State) (target : string)
    (currentStatus : BillStatus) : State :=
  let newStatus := toggled currentStatus in
  MkState (map (withStatus target newStatus) (bills st))
          (selectedWithStatus target newStatus (selectedBill st))
          (activeTab st) (isDbMissing st).

(** The state when [handleToggleStatus] has run to its end.  The
    handler's [bills] and [selectedBill] are those of the render that
    created it, i.e. of [st]. *)
Definition handleToggleStatus (st : State) (target : string)
    (currentStatus : BillStatus) (store : StoreOutcome) : State :=
  let optimistic := toggleOptimistic st target currentStatus in
  if isDbMissing st then optimistic
  else match store with
       | StoreOk => optimistic
       | StoreFails =>
           MkState (map (withStatus target currentStatus) (bills st))
                   (selectedWithStatus target currentStatus (selectedBill st))
                   (activeTab optimistic) (isDbMissing st)
       end.

Definition deleteOptimistic (st : State) (target : string) : State :=
  let selectedHit :=
    match selectedBill st with
    | Some b => String.eqb (id b) target
    | None => false
    end in
  MkState (filter (fun b => negb (String.eqb (id b) target)) (bills st))
          (if selectedHit then None else selectedBill st)
          (if selectedHit
           then match activeTab st with TabUpload => TabBills | t => t end
           else activeTab st)
          (isDbMissing st).

(** [handleDelete]; [confirmed] is the answer of [window.confirm]. *)
Definition handleDelete (st : State) (target : string) (confirmed : bool)
    (store : StoreOutcome) : State :=
  if negb confirmed then st
  else
    let prevBills := bills st in
    let optimistic := deleteOptimistic st target in
    if isDbMissing st then optimistic
    else match store with
         | StoreOk => optimistic
         | StoreFails =>
             MkState prevBills (selectedBill optimistic)
                     (activeTab optimistic) (isDbMissing st)
         end.

End App.

(* ================================================================= *)
(** ** BillHistory.tsx *)

Module BillHistory.
Import JSString JSNumber JSDate RegExp JSObject.

Definition months : list string :=
  ["Jan"; "Feb"; "Mar"; "Apr"; "May"; "Jun";
   "Jul"; "Aug"; "Sep"; "Oct"; "Nov"; "Dec"].

Definition fullMonths : list string :=
  ["January"; "February"; "March"; "April"; "May"; "June"; "July";
   "August"; "September"; "October"; "November"; "December"].

Definition separator : regex :=
  RChar (fun c => Ascii.eqb c "/" || Ascii.eqb c "-").

Definition numericPattern : regex :=
  RSeq (RGroup 1 (range 1 2 digit))
    (RSeq separator
       (RSeq (RGroup 2 (range 1 2 digit))
          (RSeq separator (RGroup 3 (range 4 4 digit))))).

Definition yearPattern : regex :=
  RSeq (chr "2") (RSeq (chr "0") (RSeq (RChar (inRange 50 51)) digit)).

Definition monthPattern : regex :=
  RGroup 1 (alts (map (lit chrI) (months ++ fullMonths)%list)).

Definition monthAt (n : number) : string :=
  match n with
  | Some z => nth (Z.to_nat z) months "undefined"
  | None => "undefined"
  end.

Definition minus1 (n : number) : number := option_map (fun z => z - 1)%Z n.

(** 1. Numeric date pattern, day/month/year assumed. *)
Definition numericKey (period : string) : option string :=
  match exec numericPattern period with
  | Some numericMatch =>
      let p2 := parseInt (group 2 (groups numericMatch)) in
      let p3 := parseInt (group 3 (groups numericMatch)) in
      if between 1 12 p2
      then Some (monthAt (minus1 p2) ++ " " ++ numberToString p3)
      else None
  | None => None
  end.

(** 2. Text search for month + year: the year ... *)
Definition textYear (env : Env) (text : string) (created : Z) : string :=
  match exec yearPattern text with
  | Some yearMatch => matched yearMatch
  | None => fullYearString env created
  end.

(** ... and the month, full or short. *)
Definition textualKey (text year : string) : option string :=
  match exec monthPattern text with
  | Some monthMatch =>
      let shortMonth := substring0 3 (matched monthMatch) in
      let normalized :=
        toUpperCase (charAt0 shortMonth) ++ toLowerCase (slice1 shortMonth) in
      if existsb (String.eqb normalized) months
      then Some (normalized ++ " " ++ year)
      else None
  | None => None
  end.

(** 3. Fallback: [dateOfPeriod] parsed as a standard date. *)
Definition parsedKey (env : Env) (period : string) : option string :=
  match dateParse env period with
  | Some t => if (fullYear env t >? 2000)%Z then Some (monthYear env t) else None
  | None => None
  end.

(** Helper to format period as "ShortMonth Year".  Each step is reached only when
    the ones before it returned nothing; 4. is the upload date. *)
Definition formatPeriod (env : Env) (bill : BillRecord) : string :=
  let text := dateOfPeriod bill ++ " " ++ orElse (dueDate bill) "" in
  match numericKey (dateOfPeriod bill) with
  | Some key => key
  | None =>
      let year := textYear env text (createdAt bill) in
      match textualKey text year with
      | Some key => key
      | None =>
          match parsedKey env (dateOfPeriod bill) with
          | Some key => key
          | None => monthYearString env (createdAt bill)
          end
      end
  end.

Record Group : Type := MkGroup {
  name : string;
  items : list BillRecord;
  total : Z;
  latest : option Z
}.

Definition groupName (bill : BillRecord) : string :=
  if truthy (billName bill) then billName bill else "Unknown".

(** One round of the [forEach]; [None] is the [TypeError] of
    [groups[name].push] when [groups[name]] is a member inherited
    from [Object.prototype] rather than an array. *)
Definition addToGroup (groups : object (list BillRecord)) (bill : BillRecord)
  : option (object (list BillRecord)) :=
  let name := groupName bill in
  match getOwn groups name with
  | Some members => Some (setOwn groups name (members ++ [bill])%list)
  | None =>
      if inherited name then None
      else Some (setOwn groups name [bill])
  end.

Fixpoint collect (groups : object (list BillRecord)) (bills : list BillRecord)
  : option (object (list BillRecord)) :=
  match bills with
  | [] => Some groups
  | bill :: rest =>
      match addToGroup groups bill with
      | Some groups' => collect groups' rest
      | None => None
      end
  end.

(** [i.createdAt || 0] *)
Definition orZero (z : Z) : Z := if (z =? 0)%Z then 0%Z else z.

(** [Math.max(...xs)]; [None] is [-Infinity], the value for no
    argument. *)
Definition mathMax (xs : list Z) : option Z :=
  match xs with
  | [] => None
  | x :: xs' => Some (fold_left Z.max xs' x)
  end.

Definition toGroup (e : string * list BillRecord) : Group :=
  let '(name, items) := e in
  MkGroup name items
          (fold_left (fun sum item => sum + amount item)%Z items 0%Z)
          (mathMax (map (fun i => orZero (createdAt i)) items)).

(** [b.latest - a.latest] *)
Definition byLatest (a b : Group) : Z :=
  match latest b, latest a with
  | Some x, Some y => (x - y)%Z
  | None, Some _ => (-1)%Z
  | Some _, None => 1%Z
  | None, None => 0%Z
  end.

(** [groupedBills] with [groupByBiller] set; [None] when the
    grouping raises. *)
Definition groupedBills (bills : list BillRecord) : option (list Group) :=
  match collect [] bills with
  | Some groups => Some (sortBy byLatest (map toGroup (entries groups)))
  | None => None
  end.

End BillHistory.

(* ================================================================= *)
(** ** ReportDashboard.tsx *)

Module ReportDashboard.
Import JSString JSNumber JSDate RegExp JSObject.

Inductive GroupByType : Type := ByPeriod | ByBiller.

Definition MONTH_ORDER : object Z :=
  [ ("jan", 0); ("january", 0); ("feb", 1); ("february", 1);
    ("mar", 2); ("march", 2); ("apr", 3); ("april", 3); ("may", 4);
    ("jun", 5); ("june", 5); ("jul", 6); ("july", 6);
    ("aug", 7); ("august", 7); ("sep", 8); ("september", 8);
    ("oct", 9); ("october", 9); ("nov", 10); ("november", 10);
    ("dec", 11); ("december", 11) ]%Z.

(** [/20\d{2}/] *)
Definition centuryPattern : regex :=
  RSeq (chr "2") (RSeq (chr "0") (range 2 2 digit)).

Definition getYearFromPeriod (period : string) : string :=
  match exec centuryPattern period with
  | Some m => matched m
  | None => "Unknown"
  end.

Definition getMonthFromPeriod (period : string) : string :=
  toLowerCase (removeChars (fun c => negb (isAsciiLetter c)) period).

(** [a || b] on strings. *)
Definition orString (a b : string) : string := if truthy a then a else b.

Definition matchesFilters (selectedBiller selectedYear : string)
    (bill : BillRecord) : bool :=
  let billYear := getYearFromPeriod (orString (dateOfPeriod bill) "") in
  let matchBiller :=
    String.eqb selectedBiller "all" || String.eqb (billName bill) selectedBiller in
  let matchYear :=
    String.eqb selectedYear "all" || String.eqb billYear selectedYear in
  matchBiller && matchYear.

Definition effectiveGroupBy (selectedBiller : string) (groupBy : GroupByType)
  : GroupByType :=
  if negb (String.eqb selectedBiller "all") then ByPeriod else groupBy.

(** The grouping key of one bill. *)
Definition bucketKey (selectedYear : string) (eff : GroupByType)
    (bill : BillRecord) : string :=
  match eff with
  | ByPeriod =>
      if negb (String.eqb selectedYear "all") then
        let parts := split " " (dateOfPeriod bill) in
        orString (nth 0 parts EmptyString) (dateOfPeriod bill)
      else orString (dateOfPeriod bill) "Unknown"
  | ByBiller => orString (billName bill) "Unknown"
  end.

(** One round of the [reduce].  [None]: the key names a member that
    the accumulator inherits from [Object.prototype]; [acc[key]] is
    then truthy and not a number, and [+=] does not add amounts. *)
Definition addAmount (acc : object Z) (key : string) (amt : Z)
  : option (object Z) :=
  match getOwn acc key with
  | Some v =>
      let v0 := if (v =? 0)%Z then 0%Z else v in
      Some (setOwn acc key (v0 + amt)%Z)
  | None =>
      if inherited key then None
      else Some (setOwn acc key (0 + amt)%Z)
  end.

Fixpoint reduceAmounts (key : BillRecord -> string) (acc : object Z)
    (bills : list BillRecord) : option (object Z) :=
  match bills with
  | [] => Some acc
  | bill :: rest =>
      match addAmount acc (key bill) (amount bill) with
      | Some acc' => reduceAmounts key acc' rest
      | None => None
      end
  end.

(** [(MONTH_ORDER[m] ?? 99)]; [None] when [MONTH_ORDER[m]] is an
    inherited member, which arithmetic turns into [NaN]. *)
Definition monthRank (m : string) : number :=
  match getOwn MONTH_ORDER m with
  | Some r => Some r
  | None => if inherited m then None else Some 99%Z
  end.

Definition entry : Type := (string * Z)%type.

(** The comparator of the single-year view. *)
Definition byMonth (a b : entry) : Z :=
  match monthRank (getMonthFromPeriod (fst a)),
        monthRank (getMonthFromPeriod (fst b)) with
  | Some x, Some y => (x - y)%Z
  | _, _ => 0%Z
  end.

(** The comparator of the all-years view. *)
Definition byFullDate (env : Env) (a b : entry) : Z :=
  match dateParse env (fst a) with
  | None => 1%Z
  | Some ta =>
      match dateParse env (fst b) with
      | None => (-1)%Z
      | Some tb => (ta - tb)%Z
      end
  end.

(** [b.value - a.value] *)
Definition byValue (a b : entry) : Z := (snd b - snd a)%Z.

Definition chartData (env : Env) (bills : list BillRecord)
    (selectedBiller selectedYear : string) (groupBy : GroupByType)
  : option (list entry) :=
  let filtered := filter (matchesFilters selectedBiller selectedYear) bills in
  let eff := effectiveGroupBy selectedBiller groupBy in
  match reduceAmounts (bucketKey selectedYear eff) [] filtered with
  | None => None
  | Some grouped =>
      let result := entries grouped in
      Some (match eff with
            | ByPeriod =>
                if negb (String.eqb selectedYear "all")
                then sortBy byMonth result
                else sortBy (byFullDate env) result
            | ByBiller => sortBy byValue result
            end)
  end.

End ReportDashboard.

(* ================================================================= *)
(** ** Sample hosts

    Hosts with a fixed offset from UTC and a table of short month
    names, whose date parser reads "Month YYYY" and nothing else.  They
    serve to run the definitions; no result about the program depends
    on them unless its statement names them. *)

Module Host.
Import JSString JSNumber JSDate.

Definition msPerDay : Z := 86400000.

(** Year and month (1 to 12) of a day number counted from
    1970-01-01, in the proleptic Gregorian calendar. *)
Definition civil (day : Z) : Z * Z :=
  let z := (day + 719468)%Z in
  let era := (z / 146097)%Z in
  let doe := (z - era * 146097)%Z in
  let yoe := ((doe - doe / 1460 + doe / 36524 - doe / 146096) / 365)%Z in
  let doy := (doe - (365 * yoe + yoe / 4 - yoe / 100))%Z in
  let mp := ((5 * doy + 2) / 153)%Z in
  let m := (if mp <? 10 then mp + 3 else mp - 9)%Z in
  let y := (yoe + era * 400 + (if m <=? 2 then 1 else 0))%Z in
  (y, m).

(** Day number of the first day of month [m] of year [y]. *)
Definition firstDay (y m : Z) : Z :=
  let y' := (if m <=? 2 then y - 1 else y)%Z in
  let era := (y' / 400)%Z in
  let yoe := (y' - era * 400)%Z in
  let mp := (if m <=? 2 then m + 9 else m - 3)%Z in
  let doy := ((153 * mp + 2) / 5)%Z in
  let doe := (yoe * 365 + yoe / 4 - yoe / 100 + doy)%Z in
  (era * 146097 + doe - 719468)%Z.

Definition localDay (offset t : Z) : Z := ((t + offset) / msPerDay)%Z.

Fixpoint monthIndex (w : string) (names : list string) (i : Z) : option Z :=
  match names with
  | [] => None
  | n :: names' =>
      if String.eqb (toLowerCase w) (toLowerCase n) then Some i
      else monthIndex w names' (i + 1)%Z
  end.

Definition parseMonthYear (offset : Z) (s : string) : option Z :=
  match split " " s with
  | [w; y] =>
      if JSObject.allDigits y && Nat.eqb (String.length y) 4 then
        match monthIndex w (App.months ++ App.fullMonths)%list 0%Z,
              digitsPrefix 10 y None with
        | Some i, Some yr =>
            timeClip (firstDay yr (i mod 12 + 1) * msPerDay - offset)%Z
        | _, _ => None
        end
      else None
  | _ => None
  end.

Definition fixedHost (offset : Z) (names : list string) : Env :=
  MkEnv (parseMonthYear offset)
        (fun t => fst (civil (localDay offset t)))
        (fun t =>
           let '(y, m) := civil (localDay offset t) in
           nth (Z.to_nat (m - 1)) names EmptyString
           ++ " " ++ numberToString (Some y)).

(** English month names, UTC. *)
Definition enUTC : Env := fixedHost 0 App.months.

(** English month names, five hours behind UTC. *)
Definition enWest : Env := fixedHost (-18000000) App.months.

(** Spanish month names, UTC. *)
Definition esUTC : Env :=
  fixedHost 0 ["ene"; "feb"; "mar"; "abr"; "may"; "jun";
               "jul"; "ago"; "sept"; "oct"; "nov"; "dic"].

End Host.

(* ================================================================= *)
(** ** Vocabulary of the statements *)

Module Words.
Import JSString.

(** [t] occurs in [s]. *)
Definition occursIn (t s : string) : Prop :=
  exists before after, s = before ++ t ++ after.


(** A word of the class [W] starts at the head of [x]. *)
Definition startsWithA (W : string -> Prop) (x : string) : Prop :=
  exists w rest, W w /\ x = w ++ rest.

(** In [pre ++ t], no word of the class starts inside [pre]. *)
Definition noneBefore (W : string -> Prop) (pre t : string) : Prop :=
  forall p1 p2, pre = p1 ++ p2 -> p2 <> EmptyString -> ~ startsWithA W (p2 ++ t).

(** No word of the class starts anywhere in [s]. *)
Definition nowhere (W : string -> Prop) (s : string) : Prop :=
  forall p t, s = p ++ t -> ~ startsWithA W t.

Definition isSeparator (c : ascii) : Prop := c = "/"%char \/ c = "-"%char.

Definition digitString (lo hi : nat) (s : string) : Prop :=
  JSObject.allDigits s = true /\ (lo <= String.length s <= hi)%nat.

(** day, separator, month, separator, year *)
Definition numericDate (d : string) (s1 : ascii) (mm : string) (s2 : ascii)
    (y : string) : string :=
  d ++ String s1 (mm ++ String s2 y).

Definition numericShape (d : string) (s1 : ascii) (mm : string) (s2 : ascii)
    (y : string) : Prop :=
  digitString 1 2 d /\ isSeparator s1 /\ digitString 1 2 mm
  /\ isSeparator s2 /\ digitString 4 4 y.

Definition NumericDate (w : string) : Prop :=
  exists d s1 mm s2 y, numericShape d s1 mm s2 y /\ w = numericDate d s1 mm s2 y.

(** A full or abbreviated English month name, in any case. *)
Definition MonthName (w : string) : Prop :=
  exists n, In n (App.months ++ App.fullMonths)%list
            /\ toLowerCase w = toLowerCase n.



(** The [m]-th three-letter English month abbreviation, counted
    from 1. *)
Definition monthAbbrev (m : Z) : string :=
  nth (Z.to_nat (m - 1)) App.months EmptyString.

(** The ten digits. *)
Definition digitChars : list ascii := filter isDigit allAscii.

(** All the month names the month pattern lists. *)
Definition monthNames : list string := (App.months ++ App.fullMonths)%list.

(** The non-empty suffixes of a string, longest first. *)
Fixpoint suffixes (s : string) : list string :=
  match s with
  | EmptyString => []
  | String _ s' => s :: suffixes s'
  end.

Definition isNil {A} (l : list A) : bool :=
  match l with [] => true | _ => false end.

(** No match of [r] starts inside [pre] when [t] follows. *)
Definition noMatchBefore (r : RegExp.regex) (pre t : string) : bool :=
  forallb (fun p => isNil (RegExp.outs r (p ++ t))) (suffixes pre).





(** The bills whose key is [k]. *)
Definition withKey (key : BillRecord -> string) (k : string)
    (bills : list BillRecord) : list BillRecord :=
  filter (fun b => String.eqb (key b) k) bills.

Definition sumAmounts (bills : list BillRecord) : Z :=
  fold_right (fun b acc => amount b + acc)%Z 0%Z bills.

End Words.

(* ================================================================= *)
(** ** Sample records *)

Module Samples.

(** 2024-03-05T00:00:00Z in epoch milliseconds. *)
Definition march5 : Z := 1709596800000.

Definition bill (ident name period : string) (due : option string)
    (amt created : Z) (st : BillStatus) : BillRecord :=
  MkBill ident name period due amt "Rs." None created st.

Definition slashBill : BillRecord :=
  bill "b1" "SLT" "15/10/2023" None 100 march5 unpaid.

Definition dotBill : BillRecord :=
  bill "b2" "SLT" "15.10.2023" (Some "Nov 15, 2023") 100 march5 unpaid.

Definition octoberBill : BillRecord :=
  bill "b3" "SLT" "Billing for October 2023" (Some "") 100 march5 unpaid.

Definition plainOctober : BillRecord :=
  bill "b4" "SLT" "October 2023" None 100 march5 unpaid.

Definition noSignalBill : BillRecord :=
  bill "b5" "SLT" "no signal" None 100 march5 unpaid.

Definition noSignalPaid : BillRecord :=
  bill "b6" "Water Board" "no signal" None 250 march5 paid.

Definition billA1 : BillRecord := bill "g1" "A" "October 2023" None 10 5 unpaid.
Definition billA2 : BillRecord := bill "g2" "A" "October 2023" None 5 7 paid.
Definition billB : BillRecord := bill "g3" "B" "November 2023" None 3 6 unpaid.

(** A biller whose name is a member of [Object.prototype]. *)
Definition constructorBill : BillRecord :=
  bill "g4" "constructor" "October 2023" None 42 8 unpaid.

Definition twoBills : App.State :=
  App.MkState [slashBill; noSignalPaid] (Some slashBill) App.TabBills false.

(** Two bucket labels no host reads as a date. *)
Definition unknownEntry : ReportDashboard.entry := ("Unknown", 100%Z).
Definition naEntry : ReportDashboard.entry := ("N/A", 250%Z).

End Samples.

(* ================================================================= *)
(** ** App.tsx: the month dropdown, uploads and the detail card *)

Module JSSet.

(** [set.add(x)] on the values in insertion order. *)
Definition add (seen : list string) (x : string) : list string :=
  if existsb (String.eqb x) seen then seen else (seen ++ [x])%list.

(** [Array.from(new Set(xs))]: the distinct values, each at the place
    of its first occurrence. *)
Definition distinct (xs : list string) : list string := fold_left add xs [].

End JSSet.

Module AppView.
Import JSString JSDate JSObject.

(** [dateB.getTime() - dateA.getTime()]; [NaN] counts as 0. *)
Definition byRecency (env : Env) (a b : string) : Z :=
  match dateParse env b, dateParse env a with
  | Some tb, Some ta => (tb - ta)%Z
  | _, _ => 0%Z
  end.

(** Derive unique months for the dropdown. *)
Definition availableMonths (env : Env) (bills : list BillRecord) : list string :=
  sortBy (byRecency env)
         (JSSet.distinct (map (App.getBillMonthYear env) bills)).

(** [BillData], what the extractor returns. *)
Record BillData : Type := MkData {
  dataName : string;
  dataPeriod : string;
  dataDueDate : option string;
  dataAmount : Z;
  dataCurrency : string;
  dataSummary : option string
}.

(** What [saveBill] answers. *)
Inductive SaveOutcome : Type :=
| SaveOk (saved : BillRecord)
| SaveFails (message : string).

(** [{...data, id: crypto.randomUUID(), createdAt: Date.now(),
    status: 'unpaid'}] *)
Definition localRecord (data : BillData) (uuid : string) (now : Z) : BillRecord :=
  MkBill uuid (dataName data) (dataPeriod data) (dataDueDate data)
         (dataAmount data) (dataCurrency data) (dataSummary data) now unpaid.

(** The record [handleFileSelect] keeps once extraction has
    succeeded: the store's, or the local one when the store is known
    to be missing or fails. *)
Definition savedRecord (st : App.State) (data : BillData) (uuid : string)
    (now : Z) (answer : SaveOutcome) : BillRecord :=
  if App.isDbMissing st then localRecord data uuid now
  else match answer with
       | SaveOk saved => saved
       | SaveFails _ => localRecord data uuid now
       end.

(** [dbError.message.includes('due_date') || ...includes('column')] *)
Definition schemaOutdated (message : string) : bool :=
  includes message "due_date" || includes message "column".

(** [setBills(prev => [savedRecord, ...prev]); setSelectedBill(savedRecord)] *)
Definition afterUpload (st : App.State) (saved : BillRecord) : App.State :=
  App.MkState (saved :: App.bills st) (Some saved)
              (App.activeTab st) (App.isDbMissing st).

Definition handleBack (st : App.State) : App.State :=
  App.MkState (App.bills st) None
              (match App.activeTab st with
               | App.TabUpload => App.TabBills
               | t => t
               end)
              (App.isDbMissing st).

Definition handleTabChange (st : App.State) (tab : App.ViewType) : App.State :=
  App.MkState (App.bills st) None tab (App.isDbMissing st).

(** What the user can do.  The detail card ([BillCard]) is on screen
    when a bill is selected; its buttons call
    [onToggleStatus(data.id, data.status)], [onDelete(data.id)] and
    [onBack] with [data] the selected bill.  A row of the list calls
    [setSelectedBill] with its bill. *)
Inductive Event : Type :=
| SelectRow (bill : BillRecord)
| Back
| ChangeTab (tab : App.ViewType)
| ToggleClicked (store : App.StoreOutcome)
| DeleteClicked (confirmed : bool) (store : App.StoreOutcome)
| Uploaded (data : BillData) (uuid : string) (now : Z) (answer : SaveOutcome).

(** One event, its handler run to the end. *)
Definition step (st : App.State) (e : Event) : App.State :=
  match e with
  | SelectRow bill =>
      App.MkState (App.bills st) (Some bill) (App.activeTab st) (App.isDbMissing st)
  | Back => handleBack st
  | ChangeTab tab => handleTabChange st tab
  | ToggleClicked store =>
      match App.selectedBill st with
      | Some data => App.handleToggleStatus st (id data) (status data) store
      | None => st
      end
  | DeleteClicked confirmed store =>
      match App.selectedBill st with
      | Some data => App.handleDelete st (id data) confirmed store
      | None => st
      end
  | Uploaded data uuid now answer =>
      afterUpload st (savedRecord st data uuid now answer)
  end.

Definition run (st : App.State) (es : list Event) : App.State :=
  fold_left step es st.

End AppView.

(* ================================================================= *)
(** ** ReportDashboard.tsx: dropdown lists and the top bills *)

Module ReportView.
Import JSString JSObject ReportDashboard.

(** The default comparison of [Array.prototype.sort]: strings by
    their code units. *)
Definition defaultCompare (a b : string) : Z :=
  match String.compare a b with
  | Lt => (-1)%Z
  | Eq => 0%Z
  | Gt => 1%Z
  end.

(** The names added to [billers]: the non-empty [billName]s. *)
Definition billerNames (bills : list BillRecord) : list string :=
  map billName (filter (fun b => truthy (billName b)) bills).

(** The years added to [years]: of the non-empty periods. *)
Definition periodYears (bills : list BillRecord) : list string :=
  map (fun b => getYearFromPeriod (dateOfPeriod b))
      (filter (fun b => truthy (dateOfPeriod b)) bills).

Definition uniqueBillers (bills : list BillRecord) : list string :=
  sortBy defaultCompare (JSSet.distinct (billerNames bills)).

(** [localeCompare] is the host's collation of two strings. *)
Definition uniqueYears (localeCompare : string -> string -> Z)
    (bills : list BillRecord) : list string :=
  sortBy (fun a b => localeCompare b a) (JSSet.distinct (periodYears bills)).

(** The filter of the "Top Bills" list. *)
Definition topFilter (selectedBiller selectedYear : string) (b : BillRecord) : bool :=
  (String.eqb selectedBiller "all" || String.eqb (billName b) selectedBiller)
  && (String.eqb selectedYear "all"
      || String.eqb (getYearFromPeriod (dateOfPeriod b)) selectedYear).

(** [b.amount - a.amount] *)
Definition byAmount (a b : BillRecord) : Z := (amount b - amount a)%Z.

(** [bills.filter(...).sort(...).slice(0, 5)] *)
Definition topBills (bills : list BillRecord) (selectedBiller selectedYear : string)
  : list BillRecord :=
  firstn 5 (sortBy byAmount (filter (topFilter selectedBiller selectedYear) bills)).

End ReportView.

(* ================================================================= *)
(** ** The service worker *)

Module ServiceWorker.
Import JSString.

Inductive ResponseType : Type := Basic | Cors | Opaque | OtherType.

Record Response : Type := MkResponse {
  respStatus : Z;
  respType : ResponseType;
  respBody : string
}.

(** A request: its URL and whether its method is GET (the cache
    stores and matches GET requests only). *)
Record Request : Type := MkRequest {
  url : string;
  isGet : bool
}.

(** What [fetch] does: it resolves with a response or rejects. *)
Inductive Network : Type := Answers (r : Response) | Unreachable.

(** What the page gets: a response, or the failure of the request
    when [respondWith] receives a rejection or [undefined]. *)
Inductive Outcome : Type := Responds (r : Response) | NetworkError.

(** The cache, by URL. *)
Definition Cache : Type := list (string * Response).

(** [caches.match(request)] *)
Definition cacheMatch (cache : Cache) (req : Request) : option Response :=
  if isGet req then JSObject.getOwn cache (url req) else None.

(** [cache.put(request, response)].  It rejects, and stores nothing,
    for a request that is not GET; [accepted] says whether the cache
    takes the entry otherwise (it refuses a response with [Vary: *],
    and storage can fail). *)
Definition cachePut (cache : Cache) (req : Request) (r : Response)
    (accepted : bool) : Cache :=
  if isGet req && accepted then JSObject.setOwn cache (url req) r else cache.

Definition isCdn (hostname : string) : bool :=
  includes hostname "esm.sh"
  || includes hostname "cdn.tailwindcss.com"
  || includes hostname "flaticon.com".

Definition isType (t u : ResponseType) : bool :=
  match t, u with
  | Basic, Basic | Cors, Cors | Opaque, Opaque | OtherType, OtherType => true
  | _, _ => false
  end.

(** [!networkResponse || status !== 200 || type !== 'basic' && type !== 'cors'] *)
Definition notValid (r : Response) : bool :=
  negb (respStatus r =? 200)%Z
  || (negb (isType (respType r) Basic) && negb (isType (respType r) Cors)).

(** The [fetch] listener for one request: what is answered and the
    cache afterwards.  [hostnameOf] is [new URL(url).hostname]. *)
Definition onFetch (hostnameOf : string -> string) (cache : Cache)
    (req : Request) (net : Network) (accepted : bool) : Outcome * Cache :=
  if isCdn (hostnameOf (url req)) then
    (* cache first *)
    match cacheMatch cache req with
    | Some cachedResponse => (Responds cachedResponse, cache)
    | None =>
        match net with
        | Answers networkResponse =>
            if notValid networkResponse then (Responds networkResponse, cache)
            else (Responds networkResponse,
                  cachePut cache req networkResponse accepted)
        | Unreachable => (NetworkError, cache)
        end
    end
  else
    (* network first *)
    match net with
    | Answers networkResponse => (Responds networkResponse, cache)
    | Unreachable =>
        match cacheMatch cache req with
        | Some cachedResponse => (Responds cachedResponse, cache)
        | None => (NetworkError, cache)
        end
    end.

(** One handled request: the request, what the network did, and
    whether the cache took the entry if one was put. *)
Record Exchange : Type := MkExchange {
  exRequest : Request;
  exNetwork : Network;
  exAccepted : bool
}.

(** The cache after a history of requests. *)
Definition cacheFrom (hostnameOf : string -> string) (cache : Cache)
    (history : list Exchange) : Cache :=
  fold_left (fun c e =>
               snd (onFetch hostnameOf c (exRequest e) (exNetwork e) (exAccepted e)))
            history cache.

(** ... from the empty cache the worker starts with. *)
Definition cacheAfter (hostnameOf : string -> string) (history : list Exchange)
  : Cache :=
  cacheFrom hostnameOf [] history.

End ServiceWorker.

(* ================================================================= *)
(** ** More vocabulary and sample data *)

Module Words2.
Import JSString.

(** Four characters that spell 20 and two digits. *)
Definition CenturyWord (y : string) : Prop :=
  exists c d, y = String "2" (String "0" (String c (String d EmptyString)))
              /\ isDigit c = true /\ isDigit d = true.

(** No ASCII letter in [s]. *)
Fixpoint noLetters (s : string) : bool :=
  match s with
  | EmptyString => true
  | String c s' => negb (isAsciiLetter c) && noLetters s'
  end.

(** The character [c] does not occur in [s]. *)
Fixpoint lacks (c : ascii) (s : string) : bool :=
  match s with
  | EmptyString => true
  | String x s' => negb (Ascii.eqb x c) && lacks c s'
  end.

Definition sumValues (l : list (string * Z)) : Z :=
  fold_right (fun e acc => snd e + acc)%Z 0%Z l.

(** The invariant of the record collection and the selection: ids are
    distinct and the selected bill is one of the collection. *)
Definition consistent (st : App.State) : Prop :=
  NoDup (map id (App.bills st))
  /\ forall d, App.selectedBill st = Some d -> In d (App.bills st).


(** What the worker stores: under the URL of a GET request to one of
    the three asset hosts, a response with status 200 and type basic
    or cors. *)
Definition stored (hostnameOf : string -> string) (cache : ServiceWorker.Cache)
  : Prop :=
  forall u r, In (u, r) cache ->
    ServiceWorker.isCdn (hostnameOf u) = true
    /\ ServiceWorker.respStatus r = 200%Z
    /\ (ServiceWorker.respType r = ServiceWorker.Basic
        \/ ServiceWorker.respType r = ServiceWorker.Cors).

End Words2.

Module Samples2.

Definition paidBill : BillRecord :=
  Samples.bill "p1" "Water Board" "Mar 2024" None 250 Samples.march5 paid.

Definition octBill : BillRecord :=
  Samples.bill "p2" "SLT" "Oct 2023" None 100 Samples.march5 unpaid.

Definition selected : App.State :=
  App.MkState [octBill; paidBill] (Some octBill) App.TabBills false.

Definition data : AppView.BillData :=
  AppView.MkData "Dialog" "November 2023" (Some "Dec 1, 2023") 75 "Rs." None.

Definition hostOf (u : string) : string :=
  if JSString.startsWith "https://esm.sh/" u then "esm.sh" else "app.example".

Definition okResponse : ServiceWorker.Response :=
  ServiceWorker.MkResponse 200 ServiceWorker.Cors "module".

Definition cdnRequest : ServiceWorker.Request :=
  ServiceWorker.MkRequest "https://esm.sh/react" true.

Definition pageRequest : ServiceWorker.Request :=
  ServiceWorker.MkRequest "https://app.example/index.html" true.

End Samples2.

(* ================================================================= *)
(** * Proofs *)
(* ================================================================= *)
(** ** Strings: basic facts *)

Module StringFacts.
Import JSString.

Lemma append_nil_r (s : string) : s ++ EmptyString = s.
Proof. induction s; simpl; congruence. Qed.

Lemma append_assoc (a b c : string) : (a ++ b) ++ c = a ++ (b ++ c).
Proof. induction a; simpl; congruence. Qed.

Lemma length_append (a b : string) :
  String.length (a ++ b) = (String.length a + String.length b)%nat.
Proof. induction a; simpl; congruence. Qed.

Lemma length_zero (s : string) : String.length s = 0%nat -> s = EmptyString.
Proof. destruct s; simpl; congruence. Qed.

Lemma append_same_length (a a' b b' : string) :
  a ++ b = a' ++ b' -> String.length a = String.length a' -> a = a' /\ b = b'.
Proof.
  revert a'. induction a as [|x a IH]; intros [|x' a'] H L; simpl in *;
    try discriminate; auto.
  injection H as -> H. destruct (IH a' H) as [-> ->]; auto.
Qed.

Lemma take_append (a b : string) : take (String.length a) (a ++ b) = a.
Proof. induction a; simpl; [destruct b|]; congruence. Qed.



Lemma mapChars_append (f : ascii -> ascii) (a b : string) :
  mapChars f (a ++ b) = mapChars f a ++ mapChars f b.
Proof. induction a; simpl; congruence. Qed.




Lemma includes_empty (s : string) : includes s EmptyString = true.
Proof. destruct s; reflexivity. Qed.

End StringFacts.

(* ================================================================= *)
(** ** The matcher and the language of a pattern *)

Module RegExpFacts.
Import JSString RegExp StringFacts Words.

#[local] Hint Constructors Matches : core.

(** The ways to match that [outs] lists are exactly the prefixes of
    the input in the language of the pattern. *)
Lemma outs_spec (r : regex) :
  forall s m s' c,
    In (m, s', c) (outs r s) <-> (s = m ++ s' /\ Matches r m c).
Proof.
  induction r as [p| |r1 IH1 r2 IH2|r1 IH1 r2 IH2|n r IH]; intros s m s' c; simpl.
  - destruct s as [|x s]; simpl.
    + split; [tauto|]. intros [H M]. inversion M; subst. discriminate.
    + destruct (p x) eqn:E; simpl.
      * split.
        -- intros [H|[]]. injection H as <- <- <-. split; auto.
        -- intros [H M]. inversion M; subst. simpl in H. injection H as -> ->. auto.
      * split; [tauto|]. intros [H M]. inversion M; subst.
        simpl in H. injection H as -> ->. congruence.
  - split.
    + intros [H|[]]. injection H as <- <- <-. auto.
    + intros [H M]. inversion M; subst. auto.
  - rewrite in_flat_map. split.
    + intros ([[m1 s1] c1] & H1 & H2). apply in_map_iff in H2.
      destruct H2 as ([[m2 s2] c2] & E & H2). injection E as <- <- <-.
      apply IH1 in H1. apply IH2 in H2. destruct H1 as [-> M1], H2 as [-> M2].
      rewrite append_assoc. auto.
    + intros [H M]. inversion M; subst. rewrite append_assoc.
      exists (m1, m2 ++ s', c1). split.
      * apply IH1. auto.
      * apply in_map_iff. exists (m2, s', c2). split; auto. apply IH2. auto.
  - rewrite in_app_iff, IH1, IH2. split.
    + intros [[H M]|[H M]]; auto.
    + intros [H M]. inversion M; subst; auto.
  - rewrite in_map_iff. split.
    + intros ([[m0 s0] c0] & E & H). injection E as <- <- <-.
      apply IH in H. destruct H; auto.
    + intros [H M]. inversion M; subst. exists (m, s', c0). split; auto.
      apply IH. auto.
Qed.

Lemma outs_nil_iff (r : regex) (s : string) :
  outs r s = [] <-> ~ startsWithA (fun m => exists c, Matches r m c) s.
Proof.
  split.
  - intros E (m & rest & [c M] & H).
    assert (I : In (m, rest, c) (outs r s)) by (apply outs_spec; auto).
    rewrite E in I. exact I.
  - intros N. destruct (outs r s) as [|[[m s'] c] l] eqn:E; auto.
    exfalso. apply N. exists m, s'.
    assert (I : In (m, s', c) (outs r s)) by (rewrite E; left; auto).
    apply outs_spec in I. destruct I; eauto.
Qed.

(** The search skips a prefix inside which no match starts. *)
Lemma execFrom_skip (r : regex) (pre t : string) :
  forall i,
    (forall p1 p2, pre = p1 ++ p2 -> p2 <> EmptyString -> outs r (p2 ++ t) = []) ->
    execFrom r i (pre ++ t) = execFrom r (i + String.length pre) t.
Proof.
  induction pre as [|x pre IH]; intros i H; simpl.
  - now rewrite Nat.add_0_r.
  - change (String x (pre ++ t)) with (String x pre ++ t).
    rewrite (H EmptyString (String x pre)) by (auto; discriminate).
    rewrite IH.
    + f_equal. lia.
    + intros p1 p2 E N. apply (H (String x p1) p2); auto. simpl. now rewrite E.
Qed.

Lemma execFrom_none (r : regex) (s : string) :
  forall i,
    (forall p t, s = p ++ t -> outs r t = []) -> execFrom r i s = None.
Proof.
  induction s as [|x s IH]; intros i H; simpl.
  - now rewrite (H EmptyString EmptyString).
  - rewrite (H EmptyString (String x s)) by reflexivity.
    apply IH. intros p t E. apply (H (String x p) t). simpl. now rewrite E.
Qed.

Lemma execFrom_hit (r : regex) (i : nat) (t m s' : string) (c : caps) l :
  outs r t = (m, s', c) :: l -> execFrom r i t = Some (MatchResult i m c).
Proof. intros E. destruct t; simpl; rewrite E; reflexivity. Qed.

(** When no match starts before [t] and all the ways to match at
    [t] consume the same text with the same groups, the search
    returns that text. *)
Lemma exec_leftmost (r : regex) (W : string -> Prop) (pre t m rest : string) (c : caps) :
  (forall w k, Matches r w k -> W w) ->
  noneBefore W pre t ->
  t = m ++ rest -> Matches r m c ->
  (forall m' s' c', In (m', s', c') (outs r t) -> m' = m /\ c' = c) ->
  exec r (pre ++ t) = Some (MatchResult (String.length pre) m c).
Proof.
  intros HW NB E M U. unfold exec. rewrite execFrom_skip.
  - assert (I : In (m, rest, c) (outs r t)) by (apply outs_spec; auto).
    destruct (outs r t) as [|[[m' s'] c'] l] eqn:O; [destruct I|].
    destruct (U m' s' c') as [-> ->]; [left; reflexivity|].
    now rewrite (execFrom_hit r _ t _ _ _ _ O).
  - intros p1 p2 E1 N. apply outs_nil_iff. intros (w & q & [k Mw] & Ew).
    apply (NB p1 p2 E1 N). exists w, q. eauto.
Qed.


Lemma exec_nowhere (r : regex) (W : string -> Prop) (s : string) :
  (forall w k, Matches r w k -> W w) ->
  nowhere W s -> exec r s = None.
Proof.
  intros HW N. apply execFrom_none. intros p t E. apply outs_nil_iff.
  intros (w & q & [k Mw] & Ew). apply (N p t E). exists w, q. eauto.
Qed.

End RegExpFacts.

(* ================================================================= *)
(** ** Characters *)

Module CharFacts.
Import JSString.

Lemma in_allAscii (c : ascii) : In c allAscii.
Proof.
  unfold allAscii. apply in_map_iff. exists (nat_of_ascii c). split.
  - apply ascii_nat_embedding.
  - apply in_seq. pose proof (nat_ascii_bounded c). lia.
Qed.

(** A property of characters that a boolean test decides holds when
    the test passes on all 256 of them. *)
Lemma by_cases (P : ascii -> bool) :
  forallb P allAscii = true -> forall c, P c = true.
Proof. intros H c. exact (proj1 (forallb_forall P allAscii) H c (in_allAscii c)). Qed.

Lemma by_cases2 (P : ascii -> ascii -> bool) :
  forallb (fun a => forallb (P a) allAscii) allAscii = true ->
  forall a b, P a b = true.
Proof.
  intros H a b. apply (by_cases (P a)).
  exact (by_cases (fun a => forallb (P a) allAscii) H a).
Qed.

Lemma digit_not_separator (c : ascii) :
  isDigit c = true -> Words.isSeparator c -> False.
Proof. intros D [-> | ->]; discriminate D. Qed.




End CharFacts.

(* ================================================================= *)
(** ** The patterns of the resolver *)

Module PatternFacts.
Import JSString RegExp StringFacts RegExpFacts CharFacts Words JSObject.

#[local] Hint Constructors Matches : core.

Lemma matches_char p m c :
  Matches (RChar p) m c <-> exists x, m = String x EmptyString /\ p x = true /\ c = [].
Proof.
  split.
  - intros H. inversion H; subst. eauto.
  - intros (x & -> & H & ->). auto.
Qed.

Lemma matches_empty m c : Matches REmpty m c <-> m = EmptyString /\ c = [].
Proof.
  split.
  - intros H. inversion H; subst. auto.
  - intros [-> ->]. auto.
Qed.

Lemma matches_seq r1 r2 m c :
  Matches (RSeq r1 r2) m c <->
  exists m1 m2 c1 c2,
    m = m1 ++ m2 /\ c = (c1 ++ c2)%list /\ Matches r1 m1 c1 /\ Matches r2 m2 c2.
Proof.
  split.
  - intros H. inversion H; subst. exists m1, m2, c1, c2. auto.
  - intros (m1 & m2 & c1 & c2 & -> & -> & H1 & H2). auto.
Qed.

Lemma matches_alt r1 r2 m c :
  Matches (RAlt r1 r2) m c <-> Matches r1 m c \/ Matches r2 m c.
Proof.
  split.
  - intros H. inversion H; subst; auto.
  - intros [H|H]; auto.
Qed.

Lemma matches_group n r m c :
  Matches (RGroup n r) m c <-> exists c0, c = (n, m) :: c0 /\ Matches r m c0.
Proof.
  split.
  - intros H. inversion H; subst. eauto.
  - intros (c0 & -> & H). auto.
Qed.


(** Digit strings. *)
Lemma allDigits_append a b : allDigits (a ++ b) = allDigits a && allDigits b.
Proof. induction a; simpl; [reflexivity|]. now rewrite IHa, andb_assoc. Qed.

Lemma take_drop n s : take n s ++ drop n s = s.
Proof. revert s; induction n; intros [|x s]; simpl; try rewrite IHn; reflexivity. Qed.

Lemma length_take n s : (n <= String.length s)%nat -> String.length (take n s) = n.
Proof. revert s; induction n; intros [|x s] L; simpl in *; try lia. now rewrite IHn by lia. Qed.

Lemma length_drop n s : String.length (drop n s) = (String.length s - n)%nat.
Proof. revert s; induction n; intros [|x s]; simpl; auto. Qed.

Lemma matches_times_digit n :
  forall m c, Matches (times n digit) m c <->
              (allDigits m = true /\ String.length m = n /\ c = []).
Proof.
  induction n as [|n IH]; intros m c; simpl.
  - rewrite matches_empty. split.
    + intros [-> ->]. auto.
    + intros (_ & L & ->). apply length_zero in L. auto.
  - rewrite matches_seq. split.
    + intros (m1 & m2 & c1 & c2 & -> & -> & H1 & H2).
      apply matches_char in H1. destruct H1 as (x & -> & D & ->).
      apply IH in H2. destruct H2 as (A & L & ->). simpl.
      rewrite D, A, L. auto.
    + intros (A & L & ->). destruct m as [|x m]; [discriminate|]. simpl in *.
      apply andb_true_iff in A. destruct A as [D A].
      exists (String x EmptyString), m, [], []. repeat split; auto.
      * apply matches_char. eauto.
      * apply IH. repeat split; auto.
Qed.

Lemma matches_upTo_digit n :
  forall m c, Matches (upTo n digit) m c <->
              (allDigits m = true /\ (String.length m <= n)%nat /\ c = []).
Proof.
  induction n as [|n IH]; intros m c; simpl.
  - rewrite matches_empty. split.
    + intros [-> ->]. auto.
    + intros (_ & L & ->). destruct m; simpl in L; [auto | lia].
  - rewrite matches_alt, matches_seq, matches_empty. split.
    + intros [(m1 & m2 & c1 & c2 & -> & -> & H1 & H2) | [-> ->]].
      * apply matches_char in H1. destruct H1 as (x & -> & D & ->).
        apply IH in H2. destruct H2 as (A & L & ->). simpl.
        rewrite D, A. repeat split; auto. lia.
      * simpl. repeat split; auto. lia.
    + intros (A & L & ->). destruct m as [|x m]; [right; auto|]. left.
      simpl in *. apply andb_true_iff in A. destruct A as [D A].
      exists (String x EmptyString), m, [], []. repeat split; auto.
      * apply matches_char. eauto.
      * apply IH. repeat split; auto. lia.
Qed.

Lemma matches_range_digit lo hi m c :
  (lo <= hi)%nat ->
  (Matches (range lo hi digit) m c <-> digitString lo hi m /\ c = []).
Proof.
  intros LH. unfold range, digitString. rewrite matches_seq. split.
  - intros (m1 & m2 & c1 & c2 & -> & -> & H1 & H2).
    apply matches_times_digit in H1. apply matches_upTo_digit in H2.
    destruct H1 as (A1 & L1 & ->), H2 as (A2 & L2 & ->).
    rewrite allDigits_append, length_append, A1, A2. repeat split; auto; lia.
  - intros ((A & L) & ->).
    exists (take lo m), (drop lo m), [], [].
    rewrite <- (take_drop lo m), allDigits_append in A.
    apply andb_true_iff in A. destruct A as [A1 A2].
    repeat split; auto.
    + symmetry. apply take_drop.
    + apply matches_times_digit. repeat split; auto. apply length_take. lia.
    + apply matches_upTo_digit. repeat split; auto. rewrite length_drop. lia.
Qed.

Lemma matches_separator m c :
  Matches App.separator m c <->
  exists x, m = String x EmptyString /\ isSeparator x /\ c = [].
Proof.
  unfold App.separator, isSeparator. rewrite matches_char.
  split; intros (x & -> & H & ->); exists x; repeat split; auto.
  - apply orb_true_iff in H. now rewrite !Ascii.eqb_eq in H.
  - apply orb_true_iff. now rewrite !Ascii.eqb_eq.
Qed.

(** The language of the numeric pattern. *)
Lemma matches_numericPattern m c :
  Matches App.numericPattern m c <->
  exists d s1 mm s2 y,
    numericShape d s1 mm s2 y /\ m = numericDate d s1 mm s2 y
    /\ c = [(1, d); (2, mm); (3, y)]%nat.
Proof.
  unfold App.numericPattern, numericShape, numericDate. split.
  - intros H.
    apply matches_seq in H. destruct H as (m1 & r1 & c1 & k1 & -> & -> & G1 & H).
    apply matches_seq in H. destruct H as (x1 & r2 & e1 & k2 & -> & -> & S1 & H).
    apply matches_seq in H. destruct H as (m2 & r3 & c2 & k3 & -> & -> & G2 & H).
    apply matches_seq in H. destruct H as (x2 & m3 & e2 & c3 & -> & -> & S2 & G3).
    apply matches_group in G1, G2, G3.
    destruct G1 as (? & -> & G1), G2 as (? & -> & G2), G3 as (? & -> & G3).
    apply matches_range_digit in G1, G2, G3; try lia.
    destruct G1 as (D1 & ->), G2 as (D2 & ->), G3 as (D3 & ->).
    apply matches_separator in S1, S2.
    destruct S1 as (s1 & -> & P1 & ->), S2 as (s2 & -> & P2 & ->).
    exists m1, s1, m2, s2, m3. simpl.
    destruct D1 as (? & ? & ?), D2 as (? & ? & ?), D3 as (? & ? & ?).
    repeat split; auto.
  - intros (d & s1 & mm & s2 & y & (D1 & P1 & D2 & P2 & D3) & -> & ->).
    change (d ++ String s1 (mm ++ String s2 y))
      with (d ++ (String s1 EmptyString ++ (mm ++ (String s2 EmptyString ++ y)))).
    change [(1, d); (2, mm); (3, y)]%nat
      with ([(1, d)] ++ [] ++ [(2, mm)] ++ [] ++ [(3, y)])%nat%list.
    repeat apply MSeq.
    + apply MGroup. apply matches_range_digit; auto.
    + apply matches_separator. eauto.
    + apply MGroup. apply matches_range_digit; auto.
    + apply matches_separator. eauto.
    + apply MGroup. apply matches_range_digit; auto.
Qed.

(** Digits up to a character that is no digit: the split is unique. *)
Lemma digits_until a : forall a' x x' r r',
  allDigits a = true -> allDigits a' = true ->
  isDigit x = false -> isDigit x' = false ->
  a ++ String x r = a' ++ String x' r' -> a = a' /\ x = x' /\ r = r'.
Proof.
  induction a as [|u a IH]; intros [|u' a'] x x' r r' A A' X X' E;
    simpl in *; injection E as E1 E2; subst.
  - auto.
  - apply andb_true_iff in A'. destruct A'. congruence.
  - apply andb_true_iff in A. destruct A. congruence.
  - apply andb_true_iff in A, A'. destruct A, A'.
    destruct (IH a' x x' r r') as (-> & -> & ->); auto.
Qed.

Lemma separator_not_digit x : isSeparator x -> isDigit x = false.
Proof. intros [-> | ->]; reflexivity. Qed.

Lemma numericDate_unique d s1 mm s2 y rest d' s1' mm' s2' y' rest' :
  numericShape d s1 mm s2 y -> numericShape d' s1' mm' s2' y' ->
  numericDate d s1 mm s2 y ++ rest = numericDate d' s1' mm' s2' y' ++ rest' ->
  d = d' /\ s1 = s1' /\ mm = mm' /\ s2 = s2' /\ y = y' /\ rest = rest'.
Proof.
  unfold numericShape, numericDate, digitString.
  intros ((D1 & _) & P1 & (D2 & _) & P2 & (D3 & L3))
         ((D1' & _) & P1' & (D2' & _) & P2' & (D3' & L3')) E.
  rewrite !append_assoc in E. simpl in E. rewrite !append_assoc in E. simpl in E.
  apply digits_until in E; auto using separator_not_digit.
  destruct E as (-> & -> & E).
  apply digits_until in E; auto using separator_not_digit.
  destruct E as (-> & -> & E).
  apply append_same_length in E; [|lia]. destruct E as (-> & ->). auto 10.
Qed.

Lemma exec_numericPattern pre d s1 mm s2 y rest :
  numericShape d s1 mm s2 y ->
  noneBefore NumericDate pre (numericDate d s1 mm s2 y ++ rest) ->
  exec App.numericPattern (pre ++ numericDate d s1 mm s2 y ++ rest)
  = Some (MatchResult (String.length pre) (numericDate d s1 mm s2 y)
                      [(1, d); (2, mm); (3, y)]%nat).
Proof.
  intros S NB.
  apply exec_leftmost with (W := NumericDate) (rest := rest); auto.
  - intros w k M. apply matches_numericPattern in M.
    destruct M as (d0 & a & m0 & b & y0 & S0 & -> & _). red. eauto 10.
  - apply matches_numericPattern. eauto 10.
  - intros m' s' c' I. apply outs_spec in I. destruct I as [E M].
    apply matches_numericPattern in M.
    destruct M as (d0 & a & m0 & b & y0 & S0 & -> & ->).
    destruct (numericDate_unique _ _ _ _ _ _ _ _ _ _ _ _ S S0 E) as (-> & -> & -> & -> & -> & _).
    auto.
Qed.

End PatternFacts.

Module MonthYearFacts.
Import JSString JSNumber RegExp StringFacts RegExpFacts CharFacts Words JSObject.
Import PatternFacts.

#[local] Hint Constructors Matches : core.






Lemma monthNames_letters n : In n monthNames -> allLetters n = true.
Proof.
  assert (T : forallb allLetters monthNames = true) by reflexivity.
  intros I. exact (proj1 (forallb_forall _ _) T n I).
Qed.







(** Numbers. *)
Lemma isDigit_digitChars c : isDigit c = true -> In c digitChars.
Proof. intros D. apply filter_In. split; [apply in_allAscii | exact D]. Qed.

Lemma year_roundtrip y :
  digitString 4 4 y -> ~ startsWithA (eq "0") y ->
  numberToString (parseInt y) = y.
Proof.
  intros [A L] Z.
  assert (T : forallb (fun a => forallb (fun b => forallb (fun c => forallb (fun d =>
              let y := String a (String b (String c (String d EmptyString))) in
              Ascii.eqb a "0" || String.eqb (numberToString (parseInt y)) y)
            digitChars) digitChars) digitChars) digitChars = true)
    by (vm_compute; reflexivity).
  destruct y as [|a [|b [|c [|d [|e y]]]]]; simpl in L; try lia.
  simpl in A. repeat (apply andb_true_iff in A; destruct A as [? A]).
  rewrite forallb_forall in T. specialize (T a (isDigit_digitChars _ H)).
  rewrite forallb_forall in T. specialize (T b (isDigit_digitChars _ H0)).
  rewrite forallb_forall in T. specialize (T c (isDigit_digitChars _ H1)).
  rewrite forallb_forall in T. specialize (T d (isDigit_digitChars _ H2)).
  cbv zeta in T. apply orb_true_iff in T. destruct T as [T|T].
  - apply Ascii.eqb_eq in T. subst a. exfalso. apply Z.
    exists "0", (String b (String c (String d EmptyString))). auto.
  - now apply String.eqb_eq in T.
Qed.

End MonthYearFacts.

(* ================================================================= *)
(** ** The layers of the resolver *)

Module ResolverFacts.
Import JSString JSNumber JSDate RegExp StringFacts RegExpFacts CharFacts Words.
Import PatternFacts MonthYearFacts.

(** Checking by evaluation that no match starts in a given text. *)
Lemma suffixes_spec pre : forall p1 p2,
  pre = p1 ++ p2 -> p2 <> EmptyString -> In p2 (suffixes pre).
Proof.
  induction pre as [|x pre IH]; intros [|y p1] p2 E N; simpl in *.
  - congruence.
  - discriminate.
  - left. auto.
  - injection E as -> E. right. eauto.
Qed.

Lemma isNil_true {A} (l : list A) : isNil l = true -> l = [].
Proof. destruct l; [reflexivity | discriminate]. Qed.

Lemma noneBefore_check r (W : string -> Prop) pre t :
  (forall w, W w -> exists c, Matches r w c) ->
  noMatchBefore r pre t = true -> noneBefore W pre t.
Proof.
  intros HW C p1 p2 E N (w & q & Ww & Ew).
  unfold noMatchBefore in C. rewrite forallb_forall in C.
  specialize (C p2 (suffixes_spec pre p1 p2 E N)). apply isNil_true in C.
  apply outs_nil_iff in C. apply C. exists w, q. split; auto.
Qed.


Lemma numericDate_matches w : NumericDate w -> exists c, Matches App.numericPattern w c.
Proof.
  intros (d & s1 & mm & s2 & y & S & ->). eexists.
  apply matches_numericPattern. eauto 10.
Qed.



(** Layer 1. *)
Lemma monthAt_abbrev m :
  (1 <= m <= 12)%Z -> App.monthAt (App.minus1 (Some m)) = monthAbbrev m.
Proof.
  intros R. unfold App.monthAt, App.minus1, monthAbbrev. cbn [option_map].
  apply nth_indep. cbn [App.months List.length]. lia.
Qed.

Lemma numericKey_first pre d s1 mm s2 y rest m :
  numericShape d s1 mm s2 y ->
  noneBefore NumericDate pre (numericDate d s1 mm s2 y ++ rest) ->
  parseInt mm = Some m -> (1 <= m <= 12)%Z ->
  App.numericKey (pre ++ numericDate d s1 mm s2 y ++ rest)
  = Some (monthAbbrev m ++ " " ++ numberToString (parseInt y)).
Proof.
  intros S NB P R. unfold App.numericKey.
  rewrite exec_numericPattern by assumption. cbn [groups group Nat.eqb].
  rewrite P. unfold between.
  replace ((1 <=? m)%Z && (m <=? 12)%Z) with true
    by (symmetry; apply andb_true_iff; split; apply Z.leb_le; lia).
  now rewrite monthAt_abbrev.
Qed.










Lemma formatPeriod_same env bill :
  BillHistory.formatPeriod env bill = App.getBillMonthYear env bill.
Proof. reflexivity. Qed.

End ResolverFacts.

(* ================================================================= *)
(** ** The period resolver: results *)

Import JSString JSNumber JSDate RegExp Words.
Import StringFacts RegExpFacts CharFacts PatternFacts MonthYearFacts ResolverFacts.

(** C1 (as amended).  The list row ([formatPeriod]) and the filter
    ([getBillMonthYear]) compute the same key for every record and
    host.  The all-years bucket key of the report is not computed by
    the resolver: it is the raw [dateOfPeriod], or "Unknown" when that
    is empty, and so agrees with the canonical key exactly when the
    raw period is already the canonical key. *)
Theorem period_key_sites (env : Env) (b : BillRecord) :
  BillHistory.formatPeriod env b = App.getBillMonthYear env b
  /\ ReportDashboard.bucketKey "all" ReportDashboard.ByPeriod b
     = (if truthy (dateOfPeriod b) then dateOfPeriod b else "Unknown")
  /\ (dateOfPeriod b <> EmptyString ->
      (ReportDashboard.bucketKey "all" ReportDashboard.ByPeriod b
       = App.getBillMonthYear env b
       <-> dateOfPeriod b = App.getBillMonthYear env b)).
Proof.
  split; [reflexivity|]. split; [reflexivity|].
  intros N. unfold ReportDashboard.bucketKey, ReportDashboard.orString. simpl.
  destruct (dateOfPeriod b); [congruence|]. simpl. tauto.
Qed.

Lemma period_key_sites_witness :
  BillHistory.formatPeriod Host.enUTC Samples.slashBill
  = App.getBillMonthYear Host.enUTC Samples.slashBill
  /\ (ReportDashboard.bucketKey "all" ReportDashboard.ByPeriod Samples.slashBill
      = App.getBillMonthYear Host.enUTC Samples.slashBill
      <-> dateOfPeriod Samples.slashBill
          = App.getBillMonthYear Host.enUTC Samples.slashBill).
Proof.
  destruct (period_key_sites Host.enUTC Samples.slashBill) as (H1 & _ & H3).
  split; [exact H1|]. apply H3. discriminate.
Defined.

(** C1, counterexample: for the period "October 2023" the report
    buckets under "October 2023" while list and filter use "Oct 2023". *)
Lemma report_key_differs :
  ReportDashboard.bucketKey "all" ReportDashboard.ByPeriod Samples.plainOctober
  <> App.getBillMonthYear Host.enUTC Samples.plainOctober.
Proof. vm_compute. discriminate. Qed.

(** C2 (as amended).  When the leftmost numeric date of [dateOfPeriod]
    (one or two digits, '/' or '-', one or two digits, '/' or '-', four
    digits) has a middle group that parses to [m] in 1..12, both
    copies of the resolver return the [m]-th month abbreviation, a
    space and the year group read as a number; that is the year group
    itself when it does not begin with 0.  Neither [dueDate] nor
    [createdAt] nor the host matter. *)
Theorem numeric_date_key (env : Env) (b : BillRecord)
    (pre d : string) (s1 : ascii) (mm : string) (s2 : ascii) (y rest : string) (m : Z) :
  dateOfPeriod b = pre ++ numericDate d s1 mm s2 y ++ rest ->
  numericShape d s1 mm s2 y ->
  noneBefore NumericDate pre (numericDate d s1 mm s2 y ++ rest) ->
  parseInt mm = Some m -> (1 <= m <= 12)%Z ->
  App.getBillMonthYear env b = monthAbbrev m ++ " " ++ numberToString (parseInt y)
  /\ BillHistory.formatPeriod env b = monthAbbrev m ++ " " ++ numberToString (parseInt y)
  /\ (~ startsWithA (eq "0") y -> numberToString (parseInt y) = y).
Proof.
  intros E S NB P R.
  assert (K : App.getBillMonthYear env b
              = monthAbbrev m ++ " " ++ numberToString (parseInt y)).
  { unfold App.getBillMonthYear. rewrite E.
    now rewrite (numericKey_first pre d s1 mm s2 y rest m S NB P R). }
  split; [exact K|]. split; [rewrite formatPeriod_same; exact K|].
  intros Z. apply year_roundtrip; auto. apply S.
Qed.

Lemma numeric_date_key_witness :
  App.getBillMonthYear Host.esUTC Samples.slashBill = "Oct 2023"
  /\ BillHistory.formatPeriod Host.esUTC Samples.slashBill = "Oct 2023".
Proof.
  destruct (numeric_date_key Host.esUTC Samples.slashBill
              "" "15" "/" "10" "/" "2023" "" 10) as (H1 & H2 & H3).
  - reflexivity.
  - unfold numericShape, digitString, isSeparator. simpl. intuition lia.
  - apply (noneBefore_check App.numericPattern); [apply numericDate_matches|].
    vm_compute. reflexivity.
  - reflexivity.
  - lia.
  - split; [exact H1 | exact H2].
Defined.

(** C2, counterexample: with '.' as separator the numeric layer does
    not fire, and the key comes from the month named in [dueDate]. *)
Lemma dot_separator_not_numeric :
  App.getBillMonthYear Host.enUTC Samples.dotBill <> "Oct 2023".
Proof. vm_compute. discriminate. Qed.





(** C9 (as amended).  On one host the key is a function of
    [dateOfPeriod], [dueDate] and [createdAt] alone; across hosts it is
    the same provided the hosts parse the period alike and agree on
    the local year and on the locale's rendering of month and year. *)
Theorem resolver_deterministic (env1 env2 : Env) (b1 b2 : BillRecord) :
  dateOfPeriod b1 = dateOfPeriod b2 ->
  dueDate b1 = dueDate b2 ->
  createdAt b1 = createdAt b2 ->
  dateParse env1 (dateOfPeriod b1) = dateParse env2 (dateOfPeriod b1) ->
  (forall t, fullYear env1 t = fullYear env2 t) ->
  (forall t, monthYear env1 t = monthYear env2 t) ->
  App.getBillMonthYear env1 b1 = App.getBillMonthYear env2 b2.
Proof.
  intros E1 E2 E3 P Y L. unfold App.getBillMonthYear.
  rewrite <- E1, <- E2, <- E3.
  destruct (App.numericKey (dateOfPeriod b1)); [reflexivity|].
  assert (TY : forall text, App.textYear env1 text (createdAt b1)
                            = App.textYear env2 text (createdAt b1)).
  { intros text. unfold App.textYear, fullYearString.
    destruct (exec App.yearPattern text); [reflexivity|].
    destruct (timeClip (createdAt b1)); simpl; [now rewrite Y | reflexivity]. }
  rewrite TY. destruct (App.textualKey _ _); [reflexivity|].
  unfold App.parsedKey, monthYearString. rewrite P.
  destruct (dateParse env2 (dateOfPeriod b1)) as [t|].
  - rewrite Y, L. destruct (fullYear env2 t >? 2000)%Z; [reflexivity|].
    destruct (timeClip (createdAt b1)); [apply L | reflexivity].
  - destruct (timeClip (createdAt b1)); [apply L | reflexivity].
Qed.

Lemma resolver_deterministic_witness :
  App.getBillMonthYear Host.enUTC Samples.noSignalBill
  = App.getBillMonthYear Host.enUTC Samples.noSignalPaid.
Proof.
  apply resolver_deterministic; reflexivity.
Defined.

(** C9, counterexample: the same record resolves to "Mar 2024" on an
    English host and to "mar 2024" on a Spanish one. *)
Lemma resolver_depends_on_locale :
  App.getBillMonthYear Host.enUTC Samples.noSignalBill
  <> App.getBillMonthYear Host.esUTC Samples.noSignalBill.
Proof. vm_compute. discriminate. Qed.

(* ================================================================= *)
(** ** Filtering, the full-date comparator, optimistic updates *)


Lemma BillStatus_eqb_eq (a b : BillStatus) : BillStatus_eqb a b = true <-> a = b.
Proof. destruct a, b; simpl; split; congruence. Qed.



(** The all-years comparator where it is an ordering: a label that
    does not parse goes after one that parses, and two labels that
    parse go by ascending time. *)
Lemma byFullDate_parsed (env : Env) (a b : ReportDashboard.entry) (ta : Z) :
  dateParse env (fst a) = Some ta ->
  (dateParse env (fst b) = None ->
   (ReportDashboard.byFullDate env a b < 0
    /\ ReportDashboard.byFullDate env b a > 0)%Z)
  /\ (forall tb, dateParse env (fst b) = Some tb ->
                 ReportDashboard.byFullDate env a b = (ta - tb)%Z).
Proof.
  intros A. unfold ReportDashboard.byFullDate. rewrite A. split.
  - intros B. rewrite B. lia.
  - intros tb B. now rewrite B.
Qed.

Lemma byFullDate_unparsed (env : Env) (a b : ReportDashboard.entry) :
  dateParse env (fst a) = None -> dateParse env (fst b) = None ->
  ReportDashboard.byFullDate env a b = 1%Z
  /\ ReportDashboard.byFullDate env b a = 1%Z.
Proof.
  intros A B. unfold ReportDashboard.byFullDate. now rewrite A, B.
Qed.

(** C6, the failing input: two labels that do not parse are each
    ordered after the other. *)
Theorem byFullDate_inconsistent :
  ReportDashboard.byFullDate Host.enUTC Samples.unknownEntry Samples.naEntry = 1%Z
  /\ ReportDashboard.byFullDate Host.enUTC Samples.naEntry Samples.unknownEntry = 1%Z.
Proof. apply byFullDate_unparsed; reflexivity. Qed.

Lemma setStatus_same (b : BillRecord) : setStatus b (status b) = b.
Proof. destruct b; reflexivity. Qed.

Lemma map_withStatus_same (target : string) (cur : BillStatus) (bills : list BillRecord) :
  (forall b, In b bills -> id b = target -> status b = cur) ->
  map (App.withStatus target cur) bills = bills.
Proof.
  induction bills as [|b bills IH]; intros H; simpl; [reflexivity|].
  rewrite IH by (intros; apply H; simpl; auto). f_equal.
  unfold App.withStatus. destruct (String.eqb (id b) target) eqn:E; [|reflexivity].
  apply String.eqb_eq in E. rewrite <- (H b (or_introl eq_refl) E).
  apply setStatus_same.
Qed.



(* ================================================================= *)
(** ** Objects as maps, and sorting *)

Module ObjectFacts.
Import JSObject.

Section Own.
Context {V : Type}.
Implicit Types (o : object V) (k : string) (v : V).

Lemma getOwn_setOwn_eq o k v : getOwn (setOwn o k v) k = Some v.
Proof.
  induction o as [|[k' v'] o IH]; simpl.
  - now rewrite String.eqb_refl.
  - destruct (String.eqb k' k) eqn:E; simpl; rewrite E; auto.
Qed.

Lemma getOwn_setOwn_neq o k k' v :
  k <> k' -> getOwn (setOwn o k v) k' = getOwn o k'.
Proof.
  intros N. induction o as [|[k0 v0] o IH]; simpl.
  - apply String.eqb_neq in N. now rewrite N.
  - destruct (String.eqb k0 k) eqn:E; simpl.
    + apply String.eqb_eq in E. subst k0.
      apply String.eqb_neq in N. now rewrite N.
    + now rewrite IH.
Qed.

Lemma getOwn_None o k : getOwn o k = None -> ~ In k (map fst o).
Proof.
  induction o as [|[k' v'] o IH]; simpl; [tauto|].
  destruct (String.eqb k' k) eqn:E; [discriminate|].
  apply String.eqb_neq in E. intros G [H|H]; [congruence | now apply IH].
Qed.

Lemma setOwn_keys o k v :
  map fst (setOwn o k v)
  = match getOwn o k with
    | Some _ => map fst o
    | None => (map fst o ++ [k])%list
    end.
Proof.
  induction o as [|[k' v'] o IH]; simpl; [reflexivity|].
  destruct (String.eqb k' k) eqn:E; simpl; [reflexivity|].
  rewrite IH. now destruct (getOwn o k).
Qed.

Lemma setOwn_NoDup o k v :
  NoDup (map fst o) -> NoDup (map fst (setOwn o k v)).
Proof.
  intros ND. rewrite setOwn_keys. destruct (getOwn o k) eqn:G; [exact ND|].
  apply NoDup_app; auto.
  - repeat constructor. simpl. tauto.
  - intros x I [E|[]]. subst x. now apply (getOwn_None o k).
Qed.

Lemma getOwn_In o k v :
  NoDup (map fst o) -> (In (k, v) o <-> getOwn o k = Some v).
Proof.
  induction o as [|[k' v'] o IH]; simpl; intros ND.
  - split; [tauto | discriminate].
  - inversion ND as [|? ? NI ND']; subst.
    destruct (String.eqb k' k) eqn:E.
    + apply String.eqb_eq in E. subst k'. split.
      * intros [H|H]; [congruence|].
        exfalso. apply NI. now apply (in_map fst) in H.
      * intros H. left. congruence.
    + apply String.eqb_neq in E. rewrite <- (IH ND'). split.
      * intros [H|H]; [congruence | exact H].
      * auto.
Qed.

Lemma insertIndex_perm n (e : string * V) l :
  Permutation (insertIndex n e l) ((n, e) :: l).
Proof.
  induction l as [|[m e'] l IH]; simpl; [reflexivity|].
  destruct (n <? m)%Z; [reflexivity|].
  rewrite IH. apply perm_swap.
Qed.

Lemma partitionKeys_perm o :
  Permutation (map snd (fst (partitionKeys o)) ++ snd (partitionKeys o)) o.
Proof.
  induction o as [|[k v] o IH]; simpl; [reflexivity|].
  destruct (partitionKeys o) as [ix rest]. simpl in IH.
  destruct (arrayIndex k) as [n|]; simpl.
  - rewrite (Permutation_map snd (insertIndex_perm n (k, v) ix)). simpl.
    now constructor.
  - rewrite <- Permutation_middle. now constructor.
Qed.

Lemma entries_perm o : Permutation (entries o) o.
Proof.
  unfold entries. pose proof (partitionKeys_perm o) as P.
  now destruct (partitionKeys o).
Qed.

End Own.

Section Sorting.
Context {A : Type} (cmp : A -> A -> Z).

Lemma insertBy_perm x l : Permutation (insertBy cmp x l) (x :: l).
Proof.
  induction l as [|y l IH]; simpl; [reflexivity|].
  destruct (cmp x y <=? 0)%Z; [reflexivity|].
  rewrite IH. apply perm_swap.
Qed.

Lemma sortBy_perm l : Permutation (sortBy cmp l) l.
Proof.
  induction l as [|x l IH]; simpl; [reflexivity|].
  unfold sortBy in *. simpl. rewrite insertBy_perm. now constructor.
Qed.

(** For a comparator that never orders two elements each after
    the other, the sort leaves no neighbour out of order. *)
Hypothesis cmp_total : forall x y, (cmp x y > 0)%Z -> (cmp y x <= 0)%Z.

Lemma insertBy_sorted x l :
  Sorted (fun a b => cmp a b <= 0)%Z l ->
  Sorted (fun a b => cmp a b <= 0)%Z (insertBy cmp x l).
Proof.
  induction l as [|y l IH]; intros S; simpl.
  - repeat constructor.
  - destruct (cmp x y <=? 0)%Z eqn:E.
    + apply Z.leb_le in E. constructor; [exact S | constructor; exact E].
    + apply Z.leb_gt in E. inversion S as [|? ? S' Hd]; subst.
      constructor; [now apply IH|].
      destruct l as [|z l]; simpl.
      * constructor. apply cmp_total. lia.
      * destruct (cmp x z <=? 0)%Z.
        -- constructor. apply cmp_total. lia.
        -- inversion Hd; subst. now constructor.
Qed.

Lemma sortBy_sorted l : Sorted (fun a b => cmp a b <= 0)%Z (sortBy cmp l).
Proof.
  induction l as [|x l IH]; simpl; [constructor|].
  now apply insertBy_sorted.
Qed.

End Sorting.

Lemma Sorted_weaken {A} (R R' : A -> A -> Prop) (l : list A) :
  (forall x y, In x l -> In y l -> R x y -> R' x y) ->
  Sorted R l -> Sorted R' l.
Proof.
  induction l as [|x l IH]; intros H S; [constructor|].
  inversion S as [|? ? S' Hd]; subst. constructor.
  - apply IH; auto. intros; apply H; simpl; auto.
  - destruct Hd; constructor. apply H; simpl; auto.
Qed.

End ObjectFacts.

(* ================================================================= *)
(** ** Report buckets *)

Module ReportFacts.
Import JSObject ObjectFacts ReportDashboard.





Lemma sumAmounts_cons b l : sumAmounts (b :: l) = (amount b + sumAmounts l)%Z.
Proof. reflexivity. Qed.

(** What the accumulator holds after the [reduce]. *)
Lemma reduceAmounts_spec (key : BillRecord -> string) (l : list BillRecord) :
  forall acc,
    NoDup (map fst acc) ->
    (forall b, In b l -> inherited (key b) = false) ->
    exists acc',
      reduceAmounts key acc l = Some acc'
      /\ NoDup (map fst acc')
      /\ forall k,
          getOwn acc' k
          = match getOwn acc k with
            | Some v => Some (v + sumAmounts (withKey key k l))%Z
            | None =>
                if existsb (fun b => String.eqb (key b) k) l
                then Some (sumAmounts (withKey key k l))
                else None
            end.
Proof.
  induction l as [|a l IH]; intros acc ND H.
  - exists acc. repeat split; auto. intros k. simpl.
    destruct (getOwn acc k); [f_equal; unfold sumAmounts; simpl; lia | reflexivity].
  - cbn [reduceAmounts]. unfold addAmount.
    assert (Hl : forall b, In b l -> inherited (key b) = false)
      by (intros; apply H; simpl; auto).
    destruct (getOwn acc (key a)) as [v|] eqn:G.
    + replace (if (v =? 0)%Z then 0%Z else v) with v
        by (destruct (Z.eqb_spec v 0); congruence).
      destruct (IH (setOwn acc (key a) (v + amount a)%Z)
                   (setOwn_NoDup _ _ _ ND) Hl) as (acc' & R & ND' & S).
      exists acc'. repeat split; auto. intros k. rewrite S.
      unfold withKey. cbn [filter existsb].
      destruct (String.eqb_spec (key a) k) as [E|E].
      * subst k. rewrite getOwn_setOwn_eq, G, sumAmounts_cons. f_equal; lia.
      * now rewrite getOwn_setOwn_neq by assumption.
    + rewrite (H a (or_introl eq_refl)).
      destruct (IH (setOwn acc (key a) (0 + amount a)%Z)
                   (setOwn_NoDup _ _ _ ND) Hl) as (acc' & R & ND' & S).
      exists acc'. repeat split; auto. intros k. rewrite S.
      unfold withKey. cbn [filter existsb].
      destruct (String.eqb_spec (key a) k) as [E|E].
      * subst k. rewrite getOwn_setOwn_eq, G, sumAmounts_cons. cbn [orb].
        f_equal; lia.
      * now rewrite getOwn_setOwn_neq by assumption.
Qed.

Lemma existsb_key (key : BillRecord -> string) k l :
  existsb (fun b => String.eqb (key b) k) l = true
  <-> exists b, In b l /\ key b = k.
Proof.
  rewrite existsb_exists. split; intros (b & I & E); exists b; split; auto;
    now apply String.eqb_eq.
Qed.

End ReportFacts.

Import JSObject ObjectFacts ReportFacts.




(* ================================================================= *)
(** ** Grouping by biller *)

Module GroupFacts.
Import JSObject ObjectFacts BillHistory.

Lemma collect_spec (l : list BillRecord) :
  forall groups,
    NoDup (map fst groups) ->
    (forall b, In b l -> inherited (groupName b) = false) ->
    exists groups',
      collect groups l = Some groups'
      /\ NoDup (map fst groups')
      /\ forall k,
          getOwn groups' k
          = match getOwn groups k with
            | Some members => Some (members ++ withKey groupName k l)%list
            | None =>
                if existsb (fun b => String.eqb (groupName b) k) l
                then Some (withKey groupName k l)
                else None
            end.
Proof.
  induction l as [|a l IH]; intros groups ND H.
  - exists groups. repeat split; auto. intros k. simpl.
    destruct (getOwn groups k); [now rewrite app_nil_r | reflexivity].
  - cbn [collect]. unfold addToGroup.
    assert (Hl : forall b, In b l -> inherited (groupName b) = false)
      by (intros; apply H; simpl; auto).
    destruct (getOwn groups (groupName a)) as [members|] eqn:G.
    + destruct (IH (setOwn groups (groupName a) (members ++ [a])%list)
                   (setOwn_NoDup _ _ _ ND) Hl) as (g' & R & ND' & S).
      exists g'. repeat split; auto. intros k. rewrite S.
      unfold withKey. cbn [filter existsb].
      destruct (String.eqb_spec (groupName a) k) as [E|E].
      * subst k. rewrite getOwn_setOwn_eq, G, <- app_assoc. reflexivity.
      * now rewrite getOwn_setOwn_neq by assumption.
    + rewrite (H a (or_introl eq_refl)).
      destruct (IH (setOwn groups (groupName a) [a])
                   (setOwn_NoDup _ _ _ ND) Hl) as (g' & R & ND' & S).
      exists g'. repeat split; auto. intros k. rewrite S.
      unfold withKey. cbn [filter existsb].
      destruct (String.eqb_spec (groupName a) k) as [E|E].
      * subst k. rewrite getOwn_setOwn_eq, G. reflexivity.
      * now rewrite getOwn_setOwn_neq by assumption.
Qed.

Lemma total_sum (l : list BillRecord) :
  forall z, fold_left (fun sum item => sum + amount item)%Z l z
            = (z + sumAmounts l)%Z.
Proof.
  induction l as [|a l IH]; intros z; simpl.
  - unfold sumAmounts. simpl. lia.
  - rewrite IH. unfold sumAmounts. simpl. lia.
Qed.

Lemma orZero_id z : orZero z = z.
Proof. unfold orZero. destruct (Z.eqb_spec z 0); congruence. Qed.

Lemma fold_max_spec (xs : list Z) :
  forall x, let m := fold_left Z.max xs x in
            In m (x :: xs) /\ forall y, In y (x :: xs) -> (y <= m)%Z.
Proof.
  induction xs as [|a xs IH]; intros x; simpl.
  - split; [auto|]. intros y [<-|[]]. lia.
  - destruct (IH (Z.max x a)) as [I U]. simpl in I, U. split.
    + destruct I as [I|I]; [|auto].
      rewrite <- I. destruct (Z.max_spec x a) as [[_ ->]|[_ ->]]; auto.
    + intros y [<-|[<-|J]].
      * specialize (U (Z.max x a) (or_introl eq_refl)). lia.
      * specialize (U (Z.max x a) (or_introl eq_refl)). lia.
      * apply U. auto.
Qed.

(** The recency marker of a non-empty group is the greatest
    [createdAt] among its members. *)
Lemma mathMax_latest (members : list BillRecord) :
  members <> [] ->
  exists m, mathMax (map (fun i => orZero (createdAt i)) members) = Some m
            /\ (exists b, In b members /\ createdAt b = m)
            /\ forall b, In b members -> (createdAt b <= m)%Z.
Proof.
  destruct members as [|a l]; [congruence|]. intros _. simpl.
  eexists. split; [reflexivity|].
  destruct (fold_max_spec (map (fun i => orZero (createdAt i)) l)
                          (orZero (createdAt a))) as [I U].
  cbv zeta in I, U. split.
  - destruct I as [I|I].
    + exists a. rewrite <- I, orZero_id. auto.
    + apply in_map_iff in I. destruct I as (b & E & I).
      exists b. rewrite <- E, orZero_id. auto.
  - intros b [<-|J]; apply U.
    + left. apply orZero_id.
    + right. apply in_map_iff. exists b. rewrite orZero_id. auto.
Qed.

Lemma byLatest_total (x y : Group) :
  (byLatest x y > 0)%Z -> (byLatest y x <= 0)%Z.
Proof.
  unfold byLatest. destruct (latest x), (latest y); lia.
Qed.

End GroupFacts.

Import BillHistory GroupFacts.

(** C8, where no biller name is a member name of [Object.prototype]:
    the grouping returns, the groups have distinct names, every record
    is in the group of its [billName] ("Unknown" for an empty one), a
    group holds exactly the records of its name in their order, its
    total is the sum of their amounts, its recency marker is their
    greatest [createdAt], and the groups are in descending order of
    the marker. *)
Theorem groupedBills_spec (bills : list BillRecord) :
  (forall b, In b bills -> inherited (groupName b) = false) ->
  exists gs,
    groupedBills bills = Some gs
    /\ NoDup (map name gs)
    /\ (forall b, In b bills -> exists g, In g gs /\ name g = groupName b)
    /\ (forall g, In g gs ->
          items g = withKey groupName (name g) bills
          /\ items g <> []
          /\ total g = sumAmounts (items g)
          /\ exists m, latest g = Some m
                       /\ (exists b, In b (items g) /\ createdAt b = m)
                       /\ forall b, In b (items g) -> (createdAt b <= m)%Z)
    /\ Sorted (fun g1 g2 => exists x y, latest g1 = Some x /\ latest g2 = Some y
                                        /\ (y <= x)%Z) gs.
Proof.
  intros H. unfold groupedBills.
  destruct (collect_spec bills [] (NoDup_nil _) H) as (groups & R & ND & S).
  rewrite R. eexists. split; [reflexivity|].
  set (gs := sortBy byLatest (map toGroup (entries groups))).
  assert (P : Permutation gs (map toGroup groups)).
  { unfold gs. rewrite sortBy_perm. apply Permutation_map, entries_perm. }
  assert (N : map name (map toGroup groups) = map fst groups).
  { rewrite map_map. apply map_ext. now intros [k l]. }
  assert (G : forall g, In g gs ->
                items g = withKey groupName (name g) bills /\ items g <> []
                /\ g = toGroup (name g, items g)).
  { intros g I. apply (Permutation_in _ P) in I. apply in_map_iff in I.
    destruct I as ([k l] & <- & I). apply getOwn_In in I; auto.
    rewrite S in I. simpl in I.
    destruct (existsb _ bills) eqn:X; [|discriminate]. injection I as <-.
    simpl. repeat split; auto.
    apply existsb_exists in X. destruct X as (b & Ib & Eb).
    intros E. assert (Ib' : In b (withKey groupName k bills))
      by (apply filter_In; auto).
    rewrite E in Ib'. exact Ib'. }
  assert (L : forall g, In g gs ->
                exists m, latest g = Some m
                          /\ (exists b, In b (items g) /\ createdAt b = m)
                          /\ forall b, In b (items g) -> (createdAt b <= m)%Z).
  { intros g I. destruct (G g I) as (_ & NE & E).
    destruct (mathMax_latest (items g) NE) as (m & M & W).
    exists m. split; [|exact W]. rewrite E. exact M. }
  split; [|split; [|split]].
  - apply (Permutation_NoDup (l := map name (map toGroup groups))).
    + apply Permutation_map. now symmetry.
    + now rewrite N.
  - intros b I.
    assert (X : existsb (fun b' => String.eqb (groupName b') (groupName b)) bills = true).
    { apply existsb_exists. exists b. split; auto. apply String.eqb_refl. }
    exists (toGroup (groupName b, withKey groupName (groupName b) bills)).
    split; [|reflexivity].
    apply (Permutation_in _ (Permutation_sym P)). apply in_map.
    apply getOwn_In; auto. rewrite S. simpl. now rewrite X.
  - intros g I. destruct (G g I) as (E1 & NE & E2).
    split; [exact E1|]. split; [exact NE|]. split; [|apply L, I].
    rewrite E2. simpl. now rewrite total_sum.
  - apply (Sorted_weaken (fun a b => byLatest a b <= 0)%Z).
    + intros x y Ix Iy C. destruct (L x Ix) as (mx & Ex & _).
      destruct (L y Iy) as (my & Ey & _). exists mx, my.
      unfold byLatest in C. rewrite Ex, Ey in C. repeat split; auto. lia.
    + apply sortBy_sorted. apply byLatest_total.
Qed.

Lemma groupedBills_spec_witness :
  exists gs,
    groupedBills [Samples.billA1; Samples.billA2; Samples.billB] = Some gs
    /\ NoDup (map name gs).
Proof.
  destruct (groupedBills_spec [Samples.billA1; Samples.billA2; Samples.billB])
    as (gs & R & ND & _).
  - intros b [<-|[<-|[<-|[]]]]; reflexivity.
  - exists gs. auto.
Defined.

(** C8, the example of the specification: two records of biller A
    with amounts 10 and 5 and one of biller B with amount 3 give group
    A with total 15 before group B with total 3. *)
Lemma groupedBills_example :
  option_map (map (fun g => (name g, total g, latest g)))
             (groupedBills [Samples.billA1; Samples.billA2; Samples.billB])
  = Some [("A", 15%Z, Some 7%Z); ("B", 3%Z, Some 6%Z)].
Proof. reflexivity. Qed.

(** C8, the failing input: a biller named "constructor".  The lookup
    [groups[name]] finds the member inherited from [Object.prototype],
    no array is created, and [push] raises. *)
Theorem groupedBills_inherited_name :
  groupedBills [Samples.billA1; Samples.constructorBill] = None.
Proof. reflexivity. Qed.

(* ================================================================= *)
(** ** The examples of the specification, evaluated *)

Example numeric_example :
  App.getBillMonthYear Host.enUTC Samples.slashBill = "Oct 2023".
Proof. reflexivity. Qed.

Example textual_example :
  BillHistory.formatPeriod Host.enUTC Samples.octoberBill = "Oct 2023".
Proof. reflexivity. Qed.

Example fallback_example :
  App.getBillMonthYear Host.enUTC Samples.noSignalBill = "Mar 2024"
  /\ App.getBillMonthYear Host.enWest Samples.noSignalBill = "Mar 2024".
Proof. split; vm_compute; reflexivity. Qed.

Example month_order_example :
  ReportDashboard.monthRank (ReportDashboard.getMonthFromPeriod "Jan") = Some 0%Z
  /\ ReportDashboard.monthRank (ReportDashboard.getMonthFromPeriod "DECEMBER 2023")
     = Some 11%Z
  /\ ReportDashboard.monthRank (ReportDashboard.getMonthFromPeriod "15/10/2023")
     = Some 99%Z.
Proof. repeat split. Qed.

Example year_extraction_example :
  ReportDashboard.getYearFromPeriod "Oct 2023" = "2023"
  /\ ReportDashboard.getYearFromPeriod "no year here" = "Unknown".
Proof. split; reflexivity. Qed.

Example filter_and_example :
  App.filteredBills Host.enUTC [Samples.slashBill; Samples.noSignalPaid]
    "slt" (App.FilterOnly paid) "all" = []
  /\ App.filteredBills Host.enUTC [Samples.slashBill; Samples.noSignalPaid]
       "WATER" (App.FilterOnly paid) "Mar 2024" = [Samples.noSignalPaid].
Proof. split; vm_compute; reflexivity. Qed.

Example toggle_success_example :
  map status
      (App.bills (App.handleToggleStatus Samples.twoBills "b1" unpaid App.StoreOk))
  = [paid; paid].
Proof. reflexivity. Qed.


(* ================================================================= *)
(** ** Sets of strings and the month dropdown *)

Module SetFacts.

Lemma add_In (seen : list string) (y x : string) :
  In x (JSSet.add seen y) <-> In x seen \/ x = y.
Proof.
  unfold JSSet.add. destruct (existsb (String.eqb y) seen) eqn:E.
  - apply existsb_exists in E. destruct E as (z & I & E).
    apply String.eqb_eq in E. subst z. split; [auto|]. intros [H| ->]; auto.
  - rewrite in_app_iff. simpl. split; intros [H|H]; auto.
    + destruct H as [<-|[]]. auto.
Qed.

Lemma add_NoDup (seen : list string) (y : string) :
  NoDup seen -> NoDup (JSSet.add seen y).
Proof.
  intros ND. unfold JSSet.add. destruct (existsb (String.eqb y) seen) eqn:E; auto.
  apply NoDup_app; auto.
  - repeat constructor. simpl. tauto.
  - intros x I [<-|[]].
    assert (X : existsb (String.eqb y) seen = true)
      by (apply existsb_exists; exists y; split; auto; apply String.eqb_refl).
    congruence.
Qed.

Lemma fold_add_spec (xs : list string) :
  forall seen, NoDup seen ->
    NoDup (fold_left JSSet.add xs seen)
    /\ forall x, In x (fold_left JSSet.add xs seen) <-> In x seen \/ In x xs.
Proof.
  induction xs as [|y xs IH]; intros seen ND; simpl.
  - split; auto. intros x. tauto.
  - destruct (IH (JSSet.add seen y) (add_NoDup seen y ND)) as [N M].
    split; auto. intros x. rewrite M, add_In. intuition (subst; auto).
Qed.

Lemma distinct_spec (xs : list string) :
  NoDup (JSSet.distinct xs) /\ forall x, In x (JSSet.distinct xs) <-> In x xs.
Proof.
  destruct (fold_add_spec xs [] (NoDup_nil _)) as [N M]. split; auto.
  intros x. unfold JSSet.distinct. rewrite M. simpl. tauto.
Qed.

Lemma sorted_distinct_spec (cmp : string -> string -> Z) (xs : list string) :
  NoDup (sortBy cmp (JSSet.distinct xs))
  /\ forall x, In x (sortBy cmp (JSSet.distinct xs)) <-> In x xs.
Proof.
  destruct (distinct_spec xs) as [N M].
  pose proof (sortBy_perm cmp (JSSet.distinct xs)) as P. split.
  - apply (Permutation_NoDup (Permutation_sym P) N).
  - intros x. rewrite <- M. split; apply Permutation_in; auto. now symmetry.
Qed.

Lemma availableMonths_mem (env : Env) (bills : list BillRecord) :
  NoDup (AppView.availableMonths env bills)
  /\ forall k, In k (AppView.availableMonths env bills)
               <-> exists b, In b bills /\ App.getBillMonthYear env b = k.
Proof.
  unfold AppView.availableMonths.
  destruct (sorted_distinct_spec (AppView.byRecency env)
              (map (App.getBillMonthYear env) bills)) as [N M].
  split; auto. intros k. rewrite M, in_map_iff.
  split; intros (b & A & B); exists b; auto.
Qed.

End SetFacts.

Import SetFacts.

(** X1.  The month dropdown lists every canonical key that occurs in
    the collection, each once, and nothing else. *)
Theorem availableMonths_keys (env : Env) (bills : list BillRecord) :
  NoDup (AppView.availableMonths env bills)
  /\ forall k, In k (AppView.availableMonths env bills)
               <-> exists b, In b bills /\ App.getBillMonthYear env b = k.
Proof. exact (availableMonths_mem env bills). Qed.

Lemma filter_all {A} (f : A -> bool) (l : list A) :
  (forall x, In x l -> f x = true) -> filter f l = l.
Proof.
  induction l as [|a l IH]; intros H; simpl; [reflexivity|].
  rewrite (H a (or_introl eq_refl)), IH; auto. intros; apply H; simpl; auto.
Qed.

Lemma neutral_filters (env : Env) (k : string) (b : BillRecord) :
  App.getBillMonthYear env b = k ->
  (App.matchesSearch "" b && App.matchesStatus App.FilterAll b
   && App.matchesMonth env k b) = true.
Proof.
  intros E. unfold App.matchesSearch, App.matchesMonth. simpl.
  rewrite includes_empty, E, String.eqb_refl, orb_true_r. reflexivity.
Qed.

(** X2.  With no search text and no status filter, the options of the
    month dropdown split the collection: every bill is listed under
    the option of its own key, every option lists at least one bill,
    an option other than "all" lists only bills of that key, and "all"
    lists the whole collection. *)
Theorem month_options_cover (env : Env) (bills : list BillRecord) :
  (forall b, In b bills ->
     In (App.getBillMonthYear env b) (AppView.availableMonths env bills)
     /\ In b (App.filteredBills env bills "" App.FilterAll
                (App.getBillMonthYear env b)))
  /\ (forall k, In k (AppView.availableMonths env bills) ->
        App.filteredBills env bills "" App.FilterAll k <> [])
  /\ (forall k b, k <> "all" ->
        In b (App.filteredBills env bills "" App.FilterAll k) ->
        App.getBillMonthYear env b = k)
  /\ App.filteredBills env bills "" App.FilterAll "all" = bills.
Proof.
  destruct (availableMonths_mem env bills) as [_ M].
  split; [|split; [|split]].
  - intros b I. split.
    + apply M. eauto.
    + unfold App.filteredBills. apply filter_In. split; auto.
      now apply neutral_filters.
  - intros k I. apply M in I. destruct I as (b & I & E).
    intros Z. assert (J : In b (App.filteredBills env bills "" App.FilterAll k)).
    { unfold App.filteredBills. apply filter_In. split; auto.
      now apply neutral_filters. }
    rewrite Z in J. exact J.
  - intros k b N I. unfold App.filteredBills in I. apply filter_In in I.
    destruct I as [_ I]. rewrite !andb_true_iff in I. destruct I as [_ I].
    unfold App.matchesMonth in I. apply orb_true_iff in I.
    rewrite !String.eqb_eq in I. destruct I; congruence.
  - unfold App.filteredBills. apply filter_all. intros b _.
    unfold App.matchesSearch, App.matchesMonth. simpl.
    now rewrite includes_empty.
Qed.

Lemma byRecency_total (env : Env) (x y : string) :
  (AppView.byRecency env x y > 0)%Z -> (AppView.byRecency env y x <= 0)%Z.
Proof.
  unfold AppView.byRecency.
  destruct (dateParse env x), (dateParse env y); lia.
Qed.

(** X3.  When the host reads every key of the dropdown as a date, the
    options are in order of recency, the most recent first. *)
Theorem availableMonths_recent_first (env : Env) (bills : list BillRecord) :
  (forall b, In b bills -> dateParse env (App.getBillMonthYear env b) <> None) ->
  Sorted (fun a b => exists ta tb, dateParse env a = Some ta
                                   /\ dateParse env b = Some tb /\ (tb <= ta)%Z)
         (AppView.availableMonths env bills).
Proof.
  intros H. destruct (availableMonths_mem env bills) as [_ M].
  apply (Sorted_weaken (fun a b => AppView.byRecency env a b <= 0)%Z).
  - intros x y Ix Iy C. apply M in Ix, Iy.
    destruct Ix as (bx & Ix & <-), Iy as (byy & Iy & <-).
    pose proof (H bx Ix) as Px. pose proof (H byy Iy) as Py.
    unfold AppView.byRecency in C.
    destruct (dateParse env (App.getBillMonthYear env bx)) as [ta|]; [|congruence].
    destruct (dateParse env (App.getBillMonthYear env byy)) as [tb|]; [|congruence].
    exists ta, tb. repeat split; auto. lia.
  - unfold AppView.availableMonths. apply sortBy_sorted. apply byRecency_total.
Qed.

Lemma availableMonths_recent_first_witness :
  Sorted (fun a b => exists ta tb, dateParse Host.enUTC a = Some ta
                                   /\ dateParse Host.enUTC b = Some tb
                                   /\ (tb <= ta)%Z)
         (AppView.availableMonths Host.enUTC
            [Samples2.octBill; Samples2.paidBill; Samples.slashBill]).
Proof.
  apply availableMonths_recent_first.
  intros b [<-|[<-|[<-|[]]]]; vm_compute; discriminate.
Defined.

(* ================================================================= *)
(** ** The detail card, toggling and deleting *)

Module EventFacts.
Import Words2.



(** Distinct ids: a record is known by its id. *)
Lemma same_id bills b d :
  NoDup (map id bills) -> In b bills -> In d bills -> id b = id d -> b = d.
Proof.
  induction bills as [|a l IH]; simpl; intros N Ib Id E; [tauto|].
  inversion N as [|? ? NI N']; subst.
  destruct Ib as [<-|Ib], Id as [<-|Id]; auto.
  - exfalso. apply NI. rewrite E. now apply in_map.
  - exfalso. apply NI. rewrite <- E. now apply in_map.
Qed.

Lemma selected_status st d :
  consistent st -> App.selectedBill st = Some d ->
  forall b, In b (App.bills st) -> id b = id d -> status b = status d.
Proof.
  intros [N S] E b I Eid. now rewrite (same_id _ b d N I (S d E) Eid).
Qed.

Lemma withStatus_selected d s : App.withStatus (id d) s d = setStatus d s.
Proof. unfold App.withStatus. now rewrite String.eqb_refl. Qed.

Lemma state_eta st :
  App.MkState (App.bills st) (App.selectedBill st) (App.activeTab st)
              (App.isDbMissing st) = st.
Proof. destruct st; reflexivity. Qed.



End EventFacts.

Import Words2 EventFacts.





Lemma toggled_twice s : App.toggled (App.toggled s) = s.
Proof. destruct s; reflexivity. Qed.

Lemma setStatus_twice d s t : setStatus (setStatus d s) t = setStatus d t.
Proof. reflexivity. Qed.

Lemma withStatus_twice target s t b :
  App.withStatus target t (App.withStatus target s b) = App.withStatus target t b.
Proof.
  unfold App.withStatus. destruct (String.eqb (id b) target) eqn:E; simpl; now rewrite E.
Qed.

(** X6.  Toggling the selected bill twice, the store accepting both
    updates (or known to be missing), gives back the state before the
    first toggle. *)
Theorem toggle_twice (st : App.State) (d : BillRecord) :
  consistent st -> App.selectedBill st = Some d ->
  AppView.step (AppView.step st (AppView.ToggleClicked App.StoreOk))
               (AppView.ToggleClicked App.StoreOk) = st.
Proof.
  intros C Sel.
  assert (E1 : AppView.step st (AppView.ToggleClicked App.StoreOk)
               = App.toggleOptimistic st (id d) (status d)).
  { simpl. rewrite Sel. unfold App.handleToggleStatus.
    now destruct (App.isDbMissing st). }
  rewrite E1.
  assert (Sel' : App.selectedBill (App.toggleOptimistic st (id d) (status d))
                 = Some (setStatus d (App.toggled (status d)))).
  { simpl. rewrite Sel. simpl. now rewrite String.eqb_refl. }
  assert (E2 : forall st' d', App.selectedBill st' = Some d' ->
                 AppView.step st' (AppView.ToggleClicked App.StoreOk)
                 = App.toggleOptimistic st' (id d') (status d')).
  { intros st' d' S'. simpl. rewrite S'. unfold App.handleToggleStatus.
    now destruct (App.isDbMissing st'). }
  rewrite (E2 _ _ Sel'). unfold App.toggleOptimistic at 1. simpl.
  rewrite Sel. simpl. rewrite String.eqb_refl. simpl. rewrite String.eqb_refl.
  rewrite toggled_twice, setStatus_twice, setStatus_same.
  rewrite map_map.
  rewrite (map_ext _ (App.withStatus (id d) (status d)))
    by (intros b; apply withStatus_twice).
  rewrite map_withStatus_same by (intros b I E; now apply (selected_status st d)).
  rewrite <- Sel. apply state_eta.
Qed.

Lemma toggle_twice_witness :
  AppView.step (AppView.step Samples2.selected (AppView.ToggleClicked App.StoreOk))
               (AppView.ToggleClicked App.StoreOk) = Samples2.selected.
Proof.
  apply (toggle_twice Samples2.selected Samples2.octBill).
  - split.
    + simpl. repeat constructor; simpl; intuition discriminate.
    + intros d E. injection E as <-. simpl. auto.
  - reflexivity.
Defined.

(** X7.  After a toggle from the detail card that the store accepts,
    the bill is listed, with its new status, under the status filter
    of the new status when search and month filter are neutral, and
    under the filter of its old status no bill with its id is
    listed, whatever the search and month filter. *)
Theorem toggle_moves_between_status_views (env : Env) (st : App.State)
    (d : BillRecord) (searchTerm filterMonth : string) :
  consistent st -> App.selectedBill st = Some d ->
  let st' := AppView.step st (AppView.ToggleClicked App.StoreOk) in
  In (setStatus d (App.toggled (status d)))
     (App.filteredBills env (App.bills st') ""
        (App.FilterOnly (App.toggled (status d))) "all")
  /\ forall b, In b (App.filteredBills env (App.bills st') searchTerm
                       (App.FilterOnly (status d)) filterMonth) ->
               id b <> id d.
Proof.
  intros C Sel st'.
  assert (B : App.bills st'
              = map (App.withStatus (id d) (App.toggled (status d))) (App.bills st)).
  { unfold st'. simpl. rewrite Sel. unfold App.handleToggleStatus.
    now destruct (App.isDbMissing st). }
  rewrite B. split.
  - unfold App.filteredBills. apply filter_In. split.
    + rewrite <- withStatus_selected. apply in_map. apply C, Sel.
    + unfold App.matchesSearch, App.matchesStatus, App.matchesMonth. simpl.
      rewrite includes_empty. simpl. now destruct (status d).
  - intros b I. unfold App.filteredBills in I. apply filter_In in I.
    destruct I as [I F]. apply in_map_iff in I. destruct I as (b0 & <- & I0).
    rewrite !andb_true_iff in F. destruct F as [[_ F] _].
    unfold App.matchesStatus in F. apply BillStatus_eqb_eq in F.
    unfold App.withStatus in *. destruct (String.eqb (id b0) (id d)) eqn:E.
    + simpl in F. destruct (status d); discriminate.
    + now apply String.eqb_neq in E.
Qed.

Lemma toggle_moves_between_status_views_witness :
  In (setStatus Samples2.octBill paid)
     (App.filteredBills Host.enUTC
        (App.bills (AppView.step Samples2.selected
                      (AppView.ToggleClicked App.StoreOk)))
        "" (App.FilterOnly paid) "all").
Proof.
  apply (toggle_moves_between_status_views Host.enUTC Samples2.selected
           Samples2.octBill "" "all").
  - split.
    + simpl. repeat constructor; simpl; intuition discriminate.
    + intros d E. injection E as <-. simpl. auto.
  - reflexivity.
Defined.

Lemma filter_filter_comm {A} (p q : A -> bool) (l : list A) :
  filter p (filter q l) = filter q (filter p l).
Proof.
  induction l as [|a l IH]; simpl; [reflexivity|].
  destruct (p a) eqn:P, (q a) eqn:Q; simpl; rewrite ?P, ?Q, IH; reflexivity.
Qed.

Lemma filter_out_one (bills : list BillRecord) (d : BillRecord) :
  NoDup (map id bills) -> In d bills ->
  S (List.length (filter (fun b => negb (String.eqb (id b) (id d))) bills))
  = List.length bills.
Proof.
  induction bills as [|a l IH]; simpl; intros N I; [tauto|].
  inversion N as [|? ? NI N']; subst. destruct I as [<-|I].
  - rewrite String.eqb_refl. simpl. f_equal. f_equal. apply filter_all.
    intros b Ib. apply negb_true_iff, String.eqb_neq. intros E.
    apply NI. rewrite <- E. now apply in_map.
  - destruct (String.eqb (id a) (id d)) eqn:E.
    + apply String.eqb_eq in E. exfalso. apply NI. rewrite E. now apply in_map.
    + simpl. f_equal. now apply IH.
Qed.

(** X8.  A confirmed delete from the detail card that the store
    accepts removes exactly one record, the selected one: no record
    with its id remains, the others stay in their order, no bill is
    selected any more, and every filtered view is the former view
    without that record.  Without confirmation nothing changes. *)
Theorem card_delete (env : Env) (st : App.State) (d : BillRecord)
    (searchTerm : string) (filterStatus : App.FilterStatus) (filterMonth : string)
    (store : App.StoreOutcome) :
  consistent st -> App.selectedBill st = Some d ->
  let st' := AppView.step st (AppView.DeleteClicked true App.StoreOk) in
  App.bills st' = filter (fun b => negb (String.eqb (id b) (id d))) (App.bills st)
  /\ S (List.length (App.bills st')) = List.length (App.bills st)
  /\ (forall b, In b (App.bills st') <-> In b (App.bills st) /\ b <> d)
  /\ App.selectedBill st' = None
  /\ App.filteredBills env (App.bills st') searchTerm filterStatus filterMonth
     = filter (fun b => negb (String.eqb (id b) (id d)))
              (App.filteredBills env (App.bills st) searchTerm filterStatus filterMonth)
  /\ AppView.step st (AppView.DeleteClicked false store) = st.
Proof.
  intros C Sel st'.
  assert (B : App.bills st'
              = filter (fun b => negb (String.eqb (id b) (id d))) (App.bills st)).
  { unfold st'. simpl. rewrite Sel. unfold App.handleDelete. simpl.
    now destruct (App.isDbMissing st). }
  split; [exact B|]. rewrite B. split; [|split; [|split; [|split]]].
  - apply filter_out_one; [apply C | apply C, Sel].
  - intros b. rewrite filter_In, negb_true_iff, String.eqb_neq. split.
    + intros [I E]. split; auto. congruence.
    + intros [I E]. split; auto. intros Eid. apply E.
      apply (same_id (App.bills st)); auto; [apply C | apply C, Sel].
  - unfold st'. simpl. rewrite Sel. unfold App.handleDelete. simpl.
    destruct (App.isDbMissing st); simpl; rewrite Sel; simpl;
      now rewrite String.eqb_refl.
  - unfold App.filteredBills. apply filter_filter_comm.
  - simpl. now rewrite Sel.
Qed.

Lemma card_delete_witness :
  App.bills (AppView.step Samples2.selected (AppView.DeleteClicked true App.StoreOk))
  = [Samples2.paidBill].
Proof.
  destruct (card_delete Host.enUTC Samples2.selected Samples2.octBill
              "" App.FilterAll "all" App.StoreOk) as (H & _).
  - split.
    + simpl. repeat constructor; simpl; intuition discriminate.
    + intros d E. injection E as <-. simpl. auto.
  - reflexivity.
  - rewrite H. reflexivity.
Defined.

(* ================================================================= *)
(** ** The chart in all its views *)

Module ChartFacts.
Import Words2 ReportDashboard.


Lemma sumValues_setOwn (o : object Z) (k : string) (v : Z) :
  sumValues (setOwn o k v)
  = (sumValues o + v - match getOwn o k with Some w => w | None => 0 end)%Z.
Proof.
  induction o as [|[k' w] o IH]; unfold sumValues in *; simpl.
  - lia.
  - destruct (String.eqb k' k); simpl; lia.
Qed.

Lemma reduceAmounts_total (key : BillRecord -> string) (l : list BillRecord) :
  forall acc acc',
    reduceAmounts key acc l = Some acc' ->
    sumValues acc' = (sumValues acc + sumAmounts l)%Z.
Proof.
  induction l as [|a l IH]; intros acc acc' R; simpl in R.
  - injection R as <-. unfold sumAmounts. simpl. lia.
  - unfold addAmount in R. rewrite sumAmounts_cons.
    destruct (getOwn acc (key a)) as [v|] eqn:G.
    + apply IH in R. rewrite R, sumValues_setOwn, G.
      destruct (Z.eqb_spec v 0); lia.
    + destruct (inherited (key a)); [discriminate|].
      apply IH in R. rewrite R, sumValues_setOwn, G. lia.
Qed.

(** What [chartData] returns when no key is inherited: a permutation,
    ordered by the comparator of the view, of an accumulator that
    holds each key once with the sum of its amounts. *)
Lemma chart_result (env : Env) (bills : list BillRecord)
    (selectedBiller selectedYear : string) (groupBy : GroupByType) :
  let filtered := filter (matchesFilters selectedBiller selectedYear) bills in
  let eff := effectiveGroupBy selectedBiller groupBy in
  let key := bucketKey selectedYear eff in
  (forall b, In b filtered -> inherited (key b) = false) ->
  exists acc,
    chartData env bills selectedBiller selectedYear groupBy
    = Some (match eff with
            | ByPeriod =>
                if negb (String.eqb selectedYear "all")
                then sortBy byMonth (entries acc)
                else sortBy (byFullDate env) (entries acc)
            | ByBiller => sortBy byValue (entries acc)
            end)
    /\ NoDup (map fst acc)
    /\ sumValues acc = sumAmounts filtered
    /\ forall k v, In (k, v) acc <->
                   (exists b, In b filtered /\ key b = k)
                   /\ v = sumAmounts (withKey key k filtered).
Proof.
  intros filtered eff key H. unfold chartData. fold filtered eff key.
  destruct (reduceAmounts_spec key filtered [] (NoDup_nil _) H)
    as (acc & R & ND & S).
  rewrite R. exists acc. split; [reflexivity|]. split; [exact ND|]. split.
  - rewrite (reduceAmounts_total key filtered [] acc R). reflexivity.
  - intros k v. rewrite (getOwn_In acc k v ND), S. simpl. split.
    + intros I. destruct (existsb _ filtered) eqn:X; [|discriminate].
      apply existsb_key in X. split; [exact X | congruence].
    + intros [X ->]. apply existsb_key in X. now rewrite X.
Qed.


Section SortedOn.
Context {A : Type} (cmp : A -> A -> Z) (P : A -> Prop).
Hypothesis cmp_total_on :
  forall x y, P x -> P y -> (cmp x y > 0)%Z -> (cmp y x <= 0)%Z.

Lemma insertBy_sorted_on x l :
  P x -> Forall P l ->
  Sorted (fun a b => cmp a b <= 0)%Z l ->
  Sorted (fun a b => cmp a b <= 0)%Z (insertBy cmp x l).
Proof.
  intros Px. induction l as [|y l IH]; intros F S; simpl.
  - repeat constructor.
  - inversion F as [|? ? Py F']; subst.
    destruct (cmp x y <=? 0)%Z eqn:E.
    + apply Z.leb_le in E. constructor; [exact S | constructor; exact E].
    + apply Z.leb_gt in E. inversion S as [|? ? S' Hd]; subst.
      constructor; [now apply IH|].
      destruct l as [|z l]; simpl.
      * constructor. apply cmp_total_on; auto. lia.
      * destruct (cmp x z <=? 0)%Z.
        -- constructor. apply cmp_total_on; auto. lia.
        -- inversion Hd; subst. now constructor.
Qed.

Lemma sortBy_sorted_on l :
  Forall P l -> Sorted (fun a b => cmp a b <= 0)%Z (sortBy cmp l).
Proof.
  induction l as [|x l IH]; intros F; simpl; [constructor|].
  inversion F as [|? ? Px F']; subst.
  apply insertBy_sorted_on; auto.
  apply (Permutation_Forall (Permutation_sym (sortBy_perm cmp l))). exact F'.
Qed.

End SortedOn.

Lemma byValue_total (x y : entry) : (byValue x y > 0)%Z -> (byValue y x <= 0)%Z.
Proof. unfold byValue. lia. Qed.


End ChartFacts.

Import Words2 ChartFacts.



(** X10.  In the biller view (no biller selected, grouping by
    biller), when no biller name is a member name of
    [Object.prototype], the entries are in descending order of their
    totals: no entry has a greater total than one before it. *)
Theorem chart_biller_view_order (env : Env) (bills : list BillRecord)
    (selectedYear : string) :
  (forall b, In b (filter (ReportDashboard.matchesFilters "all" selectedYear) bills) ->
             inherited (ReportDashboard.bucketKey selectedYear
                          ReportDashboard.ByBiller b) = false) ->
  exists result,
    ReportDashboard.chartData env bills "all" selectedYear ReportDashboard.ByBiller
    = Some result
    /\ StronglySorted (fun a b => (snd b <= snd a)%Z) result.
Proof.
  intros H.
  destruct (chart_result env bills "all" selectedYear ReportDashboard.ByBiller H)
    as (acc & R & _).
  eexists. split; [exact R|]. simpl.
  apply Sorted_StronglySorted.
  - intros x y z A B. lia.
  - apply (Sorted_weaken (fun a b => ReportDashboard.byValue a b <= 0)%Z).
    + intros x y _ _ C. unfold ReportDashboard.byValue in C. lia.
    + apply sortBy_sorted, byValue_total.
Qed.

Lemma chart_biller_view_order_witness :
  exists result,
    ReportDashboard.chartData Host.enUTC
      [Samples.billB; Samples.billA1; Samples.billA2]
      "all" "all" ReportDashboard.ByBiller = Some result
    /\ StronglySorted (fun a b => (snd b <= snd a)%Z) result.
Proof.
  apply chart_biller_view_order.
  intros b I. vm_compute in I. destruct I as [<-|[<-|[<-|[]]]]; reflexivity.
Defined.



(** X12.  In the period view over all years, when the host reads
    every bucket label as a date (and no label is a member name of
    [Object.prototype]), the entries are in ascending order of that
    date. *)
Theorem chart_all_years_order (env : Env) (bills : list BillRecord)
    (selectedBiller : string) (groupBy : ReportDashboard.GroupByType) :
  ReportDashboard.effectiveGroupBy selectedBiller groupBy = ReportDashboard.ByPeriod ->
  (forall b, In b (filter (ReportDashboard.matchesFilters selectedBiller "all") bills) ->
             inherited (ReportDashboard.bucketKey "all" ReportDashboard.ByPeriod b)
             = false
             /\ dateParse env (ReportDashboard.bucketKey "all"
                                 ReportDashboard.ByPeriod b) <> None) ->
  exists result,
    ReportDashboard.chartData env bills selectedBiller "all" groupBy = Some result
    /\ StronglySorted (fun a b => exists ta tb,
                         dateParse env (fst a) = Some ta
                         /\ dateParse env (fst b) = Some tb /\ (ta <= tb)%Z)
                      result.
Proof.
  intros G H.
  assert (H' : forall b,
             In b (filter (ReportDashboard.matchesFilters selectedBiller "all") bills) ->
             inherited (ReportDashboard.bucketKey "all"
                          (ReportDashboard.effectiveGroupBy selectedBiller groupBy) b)
             = false) by (rewrite G; intros b I; apply H, I).
  destruct (chart_result env bills selectedBiller "all" groupBy H')
    as (acc & R & _ & _ & M).
  rewrite G in R, M. cbn [String.eqb Ascii.eqb Bool.eqb negb] in R.
  eexists. split; [exact R|].
  set (P := fun e : ReportDashboard.entry => dateParse env (fst e) <> None).
  assert (F : Forall P (entries acc)).
  { apply Forall_forall. intros [k v] I.
    apply (Permutation_in _ (entries_perm acc)) in I. apply M in I.
    destruct I as [(b & Ib & <-) _]. apply H, Ib. }
  assert (F' : Forall P (sortBy (ReportDashboard.byFullDate env) (entries acc)))
    by (apply (Permutation_Forall (Permutation_sym (sortBy_perm _ _))); exact F).
  apply Sorted_StronglySorted.
  - intros x y z (ta & tb & A1 & A2 & A3) (tb' & tc & B1 & B2 & B3).
    exists ta, tc. repeat split; auto. rewrite A2 in B1. injection B1 as <-. lia.
  - apply (Sorted_weaken (fun a b => ReportDashboard.byFullDate env a b <= 0)%Z).
    + intros x y Ix Iy C. rewrite Forall_forall in F'.
      pose proof (F' x Ix) as Px. pose proof (F' y Iy) as Py. unfold P in Px, Py.
      unfold ReportDashboard.byFullDate in C.
      destruct (dateParse env (fst x)) as [ta|]; [|congruence].
      destruct (dateParse env (fst y)) as [tb|]; [|congruence].
      exists ta, tb. repeat split; auto. lia.
    + apply (sortBy_sorted_on (ReportDashboard.byFullDate env) P); auto.
      intros x y Px Py. unfold P in Px, Py. unfold ReportDashboard.byFullDate.
      destruct (dateParse env (fst x)); [|congruence].
      destruct (dateParse env (fst y)); [|congruence]. lia.
Qed.

Lemma chart_all_years_order_witness :
  exists result,
    ReportDashboard.chartData Host.enUTC
      [Samples.billB; Samples.billA1; Samples2.paidBill]
      "all" "all" ReportDashboard.ByPeriod = Some result
    /\ map fst result = ["October 2023"; "November 2023"; "Mar 2024"].
Proof.
  destruct (chart_all_years_order Host.enUTC
              [Samples.billB; Samples.billA1; Samples2.paidBill]
              "all" ReportDashboard.ByPeriod) as (result & R & _).
  - reflexivity.
  - intros b I. vm_compute in I.
    destruct I as [<-|[<-|[<-|[]]]]; (split; [reflexivity | vm_compute; discriminate]).
  - exists result. split; [exact R|].
    vm_compute in R. injection R as <-. reflexivity.
Defined.

(* ================================================================= *)
(** ** Years, month ranks, the dropdowns of the report, the top bills *)

Module ReportViewFacts.
Import Words2 ReportDashboard.

Lemma matches_centuryPattern m c :
  Matches centuryPattern m c <-> CenturyWord m /\ c = [].
Proof.
  unfold centuryPattern, CenturyWord, chr. split.
  - intros H.
    apply matches_seq in H. destruct H as (m1 & r1 & c1 & k1 & -> & -> & H1 & H).
    apply matches_seq in H. destruct H as (m2 & m3 & c2 & c3 & -> & -> & H2 & H3).
    apply matches_char in H1, H2.
    destruct H1 as (x1 & -> & P1 & ->), H2 as (x2 & -> & P2 & ->).
    apply Ascii.eqb_eq in P1, P2. subst.
    apply matches_range_digit in H3; [|lia]. destruct H3 as [[A L] ->].
    destruct m3 as [|a [|b [|]]]; simpl in L; try lia.
    simpl in A. apply andb_true_iff in A. destruct A as [A B].
    apply andb_true_iff in B. destruct B as [B _].
    split; [|reflexivity]. exists a, b. auto.
  - intros ((a & b & -> & A & B) & ->).
    change (String "2" (String "0" (String a (String b EmptyString))))
      with (String "2" EmptyString ++ String "0" EmptyString
            ++ String a (String b EmptyString)).
    change (@nil (nat * string)) with (([] ++ [] ++ [])%list : caps).
    repeat apply MSeq; try (apply MChar; apply Ascii.eqb_refl).
    apply matches_range_digit; [lia|]. split; [|reflexivity]. split.
    + simpl. now rewrite A, B.
    + simpl. lia.
Qed.

Lemma centuryWord_matches w : CenturyWord w -> exists c, Matches centuryPattern w c.
Proof. intros M. eexists. apply matches_centuryPattern. eauto. Qed.

Lemma centuryWord_length y : CenturyWord y -> String.length y = 4%nat.
Proof. intros (c & d & -> & _). reflexivity. Qed.

(** A match found by the search is a part of the text. *)
Lemma execFrom_sound r s : forall i res,
  execFrom r i s = Some res ->
  exists c, Matches r (matched res) c /\ occursIn (matched res) s.
Proof.
  induction s as [|x s IH]; intros i res E; simpl in E.
  - destruct (outs r EmptyString) as [|[[m s'] c] l] eqn:O; [discriminate|].
    injection E as <-. simpl.
    assert (I : In (m, s', c) (outs r EmptyString)) by (rewrite O; left; auto).
    apply outs_spec in I. destruct I as [Es M]. exists c. split; auto.
    exists EmptyString, s'. exact Es.
  - destruct (outs r (String x s)) as [|[[m s'] c] l] eqn:O.
    + apply IH in E. destruct E as (c & M & (a & b & Es)). exists c. split; auto.
      exists (String x a), b. simpl. now rewrite Es.
    + injection E as <-. simpl.
      assert (I : In (m, s', c) (outs r (String x s))) by (rewrite O; left; auto).
      apply outs_spec in I. destruct I as [Es M]. exists c. split; auto.
      exists EmptyString, s'. exact Es.
Qed.

Lemma getYear_first p pre y post :
  p = pre ++ y ++ post -> CenturyWord y -> noneBefore CenturyWord pre (y ++ post) ->
  getYearFromPeriod p = y.
Proof.
  intros -> Y NB. unfold getYearFromPeriod.
  rewrite (exec_leftmost centuryPattern CenturyWord pre (y ++ post) y post []); auto.
  - intros w k M. now apply matches_centuryPattern in M.
  - now apply matches_centuryPattern.
  - intros m' s' c' I. apply outs_spec in I. destruct I as [E M].
    apply matches_centuryPattern in M. destruct M as [Y' ->].
    symmetry in E. apply append_same_length in E.
    + destruct E. auto.
    + now rewrite !centuryWord_length.
Qed.

Lemma noneBefore_lacks (W : string -> Prop) (c : ascii) pre t :
  (forall w, W w -> exists r, w = String c r) ->
  lacks c pre = true -> noneBefore W pre t.
Proof.
  intros HW L p1 p2 E N (w & q & Ww & Ew).
  destruct (HW w Ww) as (r & ->). destruct p2 as [|x p2]; [congruence|].
  simpl in Ew. injection Ew as -> _. subst pre.
  clear - L. induction p1 as [|y p1 IH]; simpl in L.
  - rewrite Ascii.eqb_refl in L. discriminate.
  - apply andb_true_iff in L. destruct L. auto.
Qed.

Lemma removeChars_append p a b :
  removeChars p (a ++ b) = removeChars p a ++ removeChars p b.
Proof.
  induction a as [|x a IH]; simpl; [reflexivity|].
  destruct (p x); simpl; now rewrite IH.
Qed.

Lemma removeChars_noLetters s :
  noLetters s = true -> removeChars (fun c => negb (isAsciiLetter c)) s = EmptyString.
Proof.
  induction s as [|x s IH]; simpl; [reflexivity|]. intros H.
  apply andb_true_iff in H. destruct H as [H1 H2]. rewrite H1. auto.
Qed.

Lemma removeChars_letters s :
  allLetters s = true -> removeChars (fun c => negb (isAsciiLetter c)) s = s.
Proof.
  induction s as [|x s IH]; simpl; [reflexivity|]. intros H.
  apply andb_true_iff in H. destruct H as [H1 H2]. rewrite H1. simpl. now rewrite IH.
Qed.

Lemma letter_of_fold (x y : ascii) :
  isAsciiLetter y = true -> toLowerChar x = toLowerChar y -> isAsciiLetter x = true.
Proof.
  intros L E.
  assert (T : forallb (fun x => forallb (fun y =>
                  implb (Ascii.eqb (toLowerChar x) (toLowerChar y)) (isAsciiLetter x))
                (filter isAsciiLetter allAscii)) allAscii = true)
    by (vm_compute; reflexivity).
  pose proof (by_cases _ T x) as B. cbv beta in B.
  rewrite forallb_forall in B. specialize (B y).
  rewrite (proj2 (Ascii.eqb_eq _ _) E) in B. apply B.
  apply filter_In. split; [apply in_allAscii | exact L].
Qed.

Lemma letters_of_fold n : allLetters n = true ->
  forall w, toLowerCase w = toLowerCase n -> allLetters w = true.
Proof.
  unfold toLowerCase. induction n as [|y n IH]; intros L [|x w] E; simpl in *;
    try discriminate; auto.
  apply andb_true_iff in L. destruct L as [Ly Ln]. injection E as E1 E2.
  rewrite (letter_of_fold x y Ly E1). simpl. now apply (IH Ln).
Qed.

Lemma Sorted_NoDup_strict {A} (R : A -> A -> Prop) (l : list A) :
  Sorted R l -> NoDup l -> Sorted (fun a b => R a b /\ a <> b) l.
Proof.
  induction l as [|a l IH]; intros S N; [constructor|].
  inversion S as [|? ? S' Hd]; subst. inversion N as [|? ? NI N']; subst.
  constructor; auto. destruct Hd as [|b l Rab]; constructor.
  split; auto. intros ->. apply NI. left. reflexivity.
Qed.

Lemma defaultCompare_total (x y : string) :
  (ReportView.defaultCompare x y > 0)%Z -> (ReportView.defaultCompare y x <= 0)%Z.
Proof.
  unfold ReportView.defaultCompare. rewrite (String.compare_antisym y x).
  destruct (String.compare x y); simpl; lia.
Qed.

Lemma orString_empty a : orString a "" = a.
Proof. now destruct a. Qed.

Lemma topFilter_same sb sy b :
  ReportView.topFilter sb sy b = matchesFilters sb sy b.
Proof.
  unfold ReportView.topFilter, matchesFilters. now rewrite orString_empty.
Qed.

Lemma StronglySorted_app {A} (R : A -> A -> Prop) (l1 l2 : list A) :
  StronglySorted R (l1 ++ l2)%list ->
  StronglySorted R l1 /\ forall x y, In x l1 -> In y l2 -> R x y.
Proof.
  induction l1 as [|a l1 IH]; simpl; intros S.
  - split; [constructor | intros x y []].
  - apply StronglySorted_inv in S. destruct S as [S F].
    destruct (IH S) as [S1 H]. split.
    + constructor; auto. apply Forall_forall. intros x I.
      rewrite Forall_forall in F. apply F, in_app_iff. auto.
    + intros x y [<-|I] J; [|auto].
      rewrite Forall_forall in F. apply F, in_app_iff. auto.
Qed.

Lemma byAmount_total (x y : BillRecord) :
  (ReportView.byAmount x y > 0)%Z -> (ReportView.byAmount y x <= 0)%Z.
Proof. unfold ReportView.byAmount. lia. Qed.

End ReportViewFacts.

Import ReportViewFacts.

(** X13.  [getYearFromPeriod] returns the leftmost "20" followed by
    two digits of its argument, and "Unknown" when there is none; its
    result is always "Unknown" or such a four-character part of the
    argument.  On a canonical key, a month abbreviation, a space and
    such a year, it returns the year. *)
Theorem year_of_period (p : string) :
  (forall pre y post,
      p = pre ++ y ++ post -> CenturyWord y ->
      noneBefore CenturyWord pre (y ++ post) ->
      ReportDashboard.getYearFromPeriod p = y)
  /\ (nowhere CenturyWord p -> ReportDashboard.getYearFromPeriod p = "Unknown")
  /\ (ReportDashboard.getYearFromPeriod p = "Unknown"
      \/ (CenturyWord (ReportDashboard.getYearFromPeriod p)
          /\ occursIn (ReportDashboard.getYearFromPeriod p) p))
  /\ (forall m y, (1 <= m <= 12)%Z -> CenturyWord y ->
                  ReportDashboard.getYearFromPeriod (monthAbbrev m ++ " " ++ y) = y).
Proof.
  split; [|split; [|split]].
  - intros pre y post. apply getYear_first.
  - intros N. unfold ReportDashboard.getYearFromPeriod.
    rewrite (exec_nowhere ReportDashboard.centuryPattern CenturyWord); auto.
    intros w k M. now apply matches_centuryPattern in M.
  - unfold ReportDashboard.getYearFromPeriod, exec.
    destruct (execFrom ReportDashboard.centuryPattern 0 p) as [res|] eqn:E; auto.
    right. apply execFrom_sound in E. destruct E as (c & M & O).
    apply matches_centuryPattern in M. destruct M. auto.
  - intros m y R Y.
    apply (getYear_first _ (monthAbbrev m ++ " ") y EmptyString); auto.
    + now rewrite append_assoc, append_nil_r.
    + apply (noneBefore_lacks CenturyWord "2").
      * intros w (c & d & -> & _). eauto.
      * assert (T : forallb (fun i => lacks "2" (monthAbbrev (Z.of_nat i) ++ " "))
                            (seq 1 12) = true) by reflexivity.
        rewrite forallb_forall in T. specialize (T (Z.to_nat m)).
        rewrite Z2Nat.id in T by lia. apply T. apply in_seq. lia.
Qed.

Lemma year_of_period_witness :
  ReportDashboard.getYearFromPeriod
    (App.getBillMonthYear Host.enUTC Samples.octoberBill) = "2023".
Proof.
  destruct (year_of_period (App.getBillMonthYear Host.enUTC Samples.octoberBill))
    as (_ & _ & _ & H).
  apply (H 10%Z "2023").
  - lia.
  - exists "2"%char, "3"%char. auto.
Defined.

(** X14.  The month key of a label that is a month name, full or
    abbreviated and in any case, surrounded by characters that are no
    letters (a year, spaces, punctuation), has the rank of that month
    in the month table: 0 for January to 11 for December. *)
Theorem month_rank_of_name (s1 w s2 : string) :
  noLetters s1 = true -> noLetters s2 = true -> MonthName w ->
  exists i n,
    nth_error monthNames i = Some n
    /\ toLowerCase w = toLowerCase n
    /\ ReportDashboard.monthRank
         (ReportDashboard.getMonthFromPeriod (s1 ++ w ++ s2))
       = Some (Z.of_nat i mod 12)%Z.
Proof.
  intros L1 L2 (n & I & E). fold monthNames in I.
  destruct (In_nth_error _ _ I) as (i & Ni).
  exists i, n. split; [exact Ni|]. split; [exact E|].
  unfold ReportDashboard.getMonthFromPeriod.
  rewrite !removeChars_append, (removeChars_noLetters s1 L1),
    (removeChars_noLetters s2 L2), append_nil_r.
  cbn [append].
  rewrite (removeChars_letters w)
    by (apply (letters_of_fold n); auto; now apply monthNames_letters).
  rewrite E.
  assert (T : forallb (fun i =>
                match nth_error monthNames i with
                | Some n =>
                    match ReportDashboard.monthRank (toLowerCase n) with
                    | Some r => (r =? Z.of_nat i mod 12)%Z
                    | None => false
                    end
                | None => false
                end) (seq 0 24) = true) by (vm_compute; reflexivity).
  rewrite forallb_forall in T. specialize (T i).
  assert (Li : (i < 24)%nat).
  { apply (proj1 (nth_error_Some monthNames i)). congruence. }
  rewrite Ni in T.
  destruct (ReportDashboard.monthRank (toLowerCase n)) as [r|].
  - f_equal. apply Z.eqb_eq. apply T. apply in_seq. lia.
  - exfalso. assert (F : false = true) by (apply T; apply in_seq; lia).
    discriminate.
Qed.

Lemma month_rank_of_name_witness :
  exists i n,
    nth_error monthNames i = Some n
    /\ toLowerCase "OCTOBER" = toLowerCase n
    /\ ReportDashboard.monthRank
         (ReportDashboard.getMonthFromPeriod ("" ++ "OCTOBER" ++ " 2023"))
       = Some (Z.of_nat i mod 12)%Z.
Proof.
  apply month_rank_of_name.
  - reflexivity.
  - reflexivity.
  - exists "October". split; [simpl; tauto | reflexivity].
Defined.

(** X15.  The biller dropdown of the report lists the non-empty biller
    names of the collection, each once, in strictly ascending order
    of their code units; selecting any of them leaves at least one
    record in the chart's filter. *)
Theorem uniqueBillers_spec (bills : list BillRecord) :
  NoDup (ReportView.uniqueBillers bills)
  /\ (forall k, In k (ReportView.uniqueBillers bills)
                <-> k <> EmptyString /\ exists b, In b bills /\ billName b = k)
  /\ Sorted (fun a b => String.compare a b = Lt) (ReportView.uniqueBillers bills)
  /\ (forall k, In k (ReportView.uniqueBillers bills) ->
                filter (ReportDashboard.matchesFilters k "all") bills <> []).
Proof.
  unfold ReportView.uniqueBillers.
  destruct (sorted_distinct_spec ReportView.defaultCompare
              (ReportView.billerNames bills)) as [N M].
  assert (M' : forall k, In k (sortBy ReportView.defaultCompare
                                 (JSSet.distinct (ReportView.billerNames bills)))
                         <-> k <> EmptyString /\ exists b, In b bills /\ billName b = k).
  { intros k. rewrite M. unfold ReportView.billerNames. rewrite in_map_iff. split.
    - intros (b & <- & I). apply filter_In in I. destruct I as [I T].
      split; [|eauto]. intros E. rewrite E in T. discriminate.
    - intros (NE & b & I & <-). exists b. split; auto. apply filter_In.
      split; auto. destruct (billName b); [congruence | reflexivity]. }
  split; [exact N|]. split; [exact M'|]. split.
  - apply (Sorted_weaken (fun a b => (ReportView.defaultCompare a b <= 0)%Z /\ a <> b)).
    + intros x y _ _ [C D]. unfold ReportView.defaultCompare in C.
      destruct (String.compare x y) eqn:E; auto; [|lia].
      apply String.compare_eq_iff in E. congruence.
    + apply Sorted_NoDup_strict; auto. apply sortBy_sorted, defaultCompare_total.
  - intros k I. apply M' in I. destruct I as (_ & b & I & E). intros Z.
    assert (J : In b (filter (ReportDashboard.matchesFilters k "all") bills)).
    { apply filter_In. split; auto. unfold ReportDashboard.matchesFilters.
      cbv zeta. rewrite E, (String.eqb_refl k), orb_true_r. reflexivity. }
    rewrite Z in J. exact J.
Qed.

(** X16.  The year dropdown of the report lists, each once and
    whatever the host's collation, the years extracted from the
    non-empty periods of the collection ("Unknown" among them when a
    period holds no year); selecting any of them leaves at least one
    record in the chart's filter. *)
Theorem uniqueYears_spec (localeCompare : string -> string -> Z)
    (bills : list BillRecord) :
  NoDup (ReportView.uniqueYears localeCompare bills)
  /\ (forall y, In y (ReportView.uniqueYears localeCompare bills)
                <-> exists b, In b bills /\ dateOfPeriod b <> EmptyString
                              /\ ReportDashboard.getYearFromPeriod (dateOfPeriod b) = y)
  /\ (forall y, In y (ReportView.uniqueYears localeCompare bills) ->
                filter (ReportDashboard.matchesFilters "all" y) bills <> []).
Proof.
  unfold ReportView.uniqueYears.
  destruct (sorted_distinct_spec (fun a b => localeCompare b a)
              (ReportView.periodYears bills)) as [N M].
  assert (M' : forall y, In y (sortBy (fun a b => localeCompare b a)
                                 (JSSet.distinct (ReportView.periodYears bills)))
                         <-> exists b, In b bills /\ dateOfPeriod b <> EmptyString
                              /\ ReportDashboard.getYearFromPeriod (dateOfPeriod b) = y).
  { intros y. rewrite M. unfold ReportView.periodYears. rewrite in_map_iff. split.
    - intros (b & <- & I). apply filter_In in I. destruct I as [I T].
      exists b. repeat split; auto. intros E. rewrite E in T. discriminate.
    - intros (b & I & NE & <-). exists b. split; auto. apply filter_In.
      split; auto. destruct (dateOfPeriod b); [congruence | reflexivity]. }
  split; [exact N|]. split; [exact M'|].
  intros y I. apply M' in I. destruct I as (b & I & _ & E). intros Z.
  assert (J : In b (filter (ReportDashboard.matchesFilters "all" y) bills)).
  { apply filter_In. split; auto. unfold ReportDashboard.matchesFilters.
    cbv zeta. rewrite orString_empty, E, (String.eqb_refl y), orb_true_r.
    reflexivity. }
  rewrite Z in J. exact J.
Qed.

(** X17.  The "Top Bills" list holds at most five records, taken from
    exactly the records the chart aggregates, in descending order of
    amount; no record left out has a greater amount than a listed
    one. *)
Theorem topBills_spec (bills : list BillRecord) (selectedBiller selectedYear : string) :
  let filtered :=
    filter (ReportDashboard.matchesFilters selectedBiller selectedYear) bills in
  let top := ReportView.topBills bills selectedBiller selectedYear in
  List.length top = Nat.min 5 (List.length filtered)
  /\ StronglySorted (fun a b => (amount b <= amount a)%Z) top
  /\ exists rest,
      Permutation (top ++ rest) filtered
      /\ forall x y, In x top -> In y rest -> (amount y <= amount x)%Z.
Proof.
  intros filtered top. unfold top, ReportView.topBills.
  rewrite (filter_ext _ _ (topFilter_same selectedBiller selectedYear)).
  fold filtered. set (sorted := sortBy ReportView.byAmount filtered).
  assert (P : Permutation sorted filtered) by apply sortBy_perm.
  assert (SS : StronglySorted (fun a b => (amount b <= amount a)%Z) sorted).
  { apply Sorted_StronglySorted.
    - intros x y z A B. lia.
    - apply (Sorted_weaken (fun a b => ReportView.byAmount a b <= 0)%Z).
      + intros x y _ _ C. unfold ReportView.byAmount in C. lia.
      + apply sortBy_sorted, byAmount_total. }
  rewrite <- (firstn_skipn 5 sorted) in SS, P.
  apply StronglySorted_app in SS. destruct SS as [S1 H].
  split; [|split; [exact S1|]].
  - rewrite length_firstn. f_equal. apply Permutation_length.
    rewrite firstn_skipn in P. exact P.
  - exists (skipn 5 sorted). split; [exact P|]. intros x y Ix Iy. now apply H.
Qed.

(* ================================================================= *)
(** ** Keys inherited from [Object.prototype] *)

Module InheritedFacts.
Import ReportDashboard.

Lemma getOwn_Some_key {V} (o : object V) k v :
  getOwn o k = Some v -> In k (map fst o).
Proof.
  induction o as [|[k' v'] o IH]; simpl; [discriminate|].
  destruct (String.eqb_spec k' k); auto.
Qed.

Lemma setOwn_keys_in {V} (o : object V) k v x :
  In x (map fst (setOwn o k v)) -> In x (map fst o) \/ x = k.
Proof.
  rewrite setOwn_keys. destruct (getOwn o k); auto.
  rewrite in_app_iff. simpl. intuition.
Qed.

Lemma collect_none (l : list BillRecord) :
  forall groups,
    (forall k, In k (map fst groups) -> inherited k = false) ->
    (exists b, In b l /\ inherited (groupName b) = true) ->
    collect groups l = None.
Proof.
  induction l as [|a l IH]; intros groups K (b & I & B); [destruct I|].
  cbn [collect]. unfold addToGroup.
  destruct (getOwn groups (groupName a)) as [members|] eqn:G.
  - apply IH.
    + intros k Ik. apply setOwn_keys_in in Ik. destruct Ik as [Ik| ->]; auto.
      apply K. now apply (getOwn_Some_key groups _ members).
    + destruct I as [<-|I]; [|eauto].
      apply getOwn_Some_key, K in G. congruence.
  - destruct (inherited (groupName a)) eqn:Ia; [reflexivity|].
    apply IH.
    + intros k Ik. apply setOwn_keys_in in Ik. destruct Ik as [Ik| ->]; auto.
    + destruct I as [<-|I]; [congruence | eauto].
Qed.


Lemma some_or_none_inherited (key : BillRecord -> string) (l : list BillRecord) :
  (forall b, In b l -> inherited (key b) = false)
  \/ (exists b, In b l /\ inherited (key b) = true).
Proof.
  destruct (existsb (fun b => inherited (key b)) l) eqn:E.
  - right. apply existsb_exists in E. exact E.
  - left. intros b I. destruct (inherited (key b)) eqn:B; auto.
    assert (X : existsb (fun b => inherited (key b)) l = true)
      by (apply existsb_exists; eauto).
    congruence.
Qed.

End InheritedFacts.

Import InheritedFacts.

(** X18.  Grouping by biller raises exactly when some record's group
    name is a member name of [Object.prototype] ("constructor",
    "toString", "__proto__", ...); for every other collection it
    returns the groups. *)
Theorem groupedBills_fails_iff (bills : list BillRecord) :
  groupedBills bills = None
  <-> exists b, In b bills /\ inherited (groupName b) = true.
Proof.
  unfold groupedBills. split.
  - intros E. destruct (some_or_none_inherited groupName bills) as [H|H]; auto.
    destruct (collect_spec bills [] (NoDup_nil _) H) as (g & R & _).
    rewrite R in E. discriminate.
  - intros H. rewrite (collect_none bills []); auto. intros k [].
Qed.


(* ================================================================= *)
(** ** The service worker's cache *)

Module WorkerFacts.
Import ServiceWorker Words2.

Lemma setOwn_In {V} (o : object V) k v x w :
  In (x, w) (setOwn o k v) -> In (x, w) o \/ (x = k /\ w = v).
Proof.
  induction o as [|[k' v'] o IH]; simpl.
  - intros [E|[]]. injection E as <- <-. auto.
  - destruct (String.eqb_spec k' k); simpl.
    + intros [E|I]; auto. injection E as <- <-. auto.
    + intros [E|I]; auto. destruct (IH I); auto.
Qed.

Lemma notValid_false r :
  notValid r = false ->
  respStatus r = 200%Z /\ (respType r = Basic \/ respType r = Cors).
Proof.
  unfold notValid. intros H. apply orb_false_iff in H. destruct H as [H1 H2].
  apply negb_false_iff, Z.eqb_eq in H1. split; auto.
  destruct (respType r); simpl in H2; auto; discriminate.
Qed.

Lemma onFetch_stored hostnameOf cache req net accepted :
  stored hostnameOf cache ->
  stored hostnameOf (snd (onFetch hostnameOf cache req net accepted)).
Proof.
  intros S. unfold onFetch.
  destruct (isCdn (hostnameOf (url req))) eqn:C.
  - destruct (cacheMatch cache req); [exact S|].
    destruct net as [r|]; [|exact S].
    destruct (notValid r) eqn:V; [exact S|]. simpl. unfold cachePut.
    destruct (isGet req && accepted); [|exact S].
    intros u w I. apply setOwn_In in I. destruct I as [I|[-> ->]]; [now apply S|].
    split; auto. now apply notValid_false.
  - destruct net; [exact S|]. destruct (cacheMatch cache req); exact S.
Qed.

Lemma cacheFrom_stored hostnameOf history :
  forall cache, stored hostnameOf cache ->
                stored hostnameOf (cacheFrom hostnameOf cache history).
Proof.
  unfold cacheFrom. induction history as [|e h IH]; intros cache S; simpl; auto.
  apply IH. now apply onFetch_stored.
Qed.

Lemma getOwn_In_any {V} (o : object V) k v : getOwn o k = Some v -> In (k, v) o.
Proof.
  induction o as [|[k' v'] o IH]; simpl; [discriminate|].
  destruct (String.eqb_spec k' k).
  - intros E. injection E as <-. subst. auto.
  - auto.
Qed.




End WorkerFacts.

Import WorkerFacts.

(** X20.  Whatever requests the worker has handled since it started
    with an empty cache, its cache holds only responses with status
    200 and type basic or cors, stored under URLs of the three asset
    hosts. *)
Theorem worker_cache_contents (hostnameOf : string -> string)
    (history : list ServiceWorker.Exchange)
    (u : string) (r : ServiceWorker.Response) :
  In (u, r) (ServiceWorker.cacheAfter hostnameOf history) ->
  ServiceWorker.isCdn (hostnameOf u) = true
  /\ ServiceWorker.respStatus r = 200%Z
  /\ (ServiceWorker.respType r = ServiceWorker.Basic
      \/ ServiceWorker.respType r = ServiceWorker.Cors).
Proof.
  intros I. apply (cacheFrom_stored hostnameOf history []); auto.
  intros x w [].
Qed.

Lemma worker_cache_contents_witness :
  ServiceWorker.isCdn (Samples2.hostOf "https://esm.sh/react") = true
  /\ ServiceWorker.respStatus Samples2.okResponse = 200%Z
  /\ (ServiceWorker.respType Samples2.okResponse = ServiceWorker.Basic
      \/ ServiceWorker.respType Samples2.okResponse = ServiceWorker.Cors).
Proof.
  apply (worker_cache_contents Samples2.hostOf
           [ServiceWorker.MkExchange Samples2.cdnRequest
              (ServiceWorker.Answers Samples2.okResponse) true]).
  vm_compute. auto.
Defined.

(** X21.  A request to any other host is never answered from the
    cache: when the network is unreachable it fails, whatever the
    worker has handled since it started with an empty cache, because
    nothing of such a host is ever stored. *)
Theorem worker_offline_page_fails (hostnameOf : string -> string)
    (history : list ServiceWorker.Exchange)
    (req : ServiceWorker.Request) (accepted : bool) :
  ServiceWorker.isCdn (hostnameOf (ServiceWorker.url req)) = false ->
  fst (ServiceWorker.onFetch hostnameOf (ServiceWorker.cacheAfter hostnameOf history)
         req ServiceWorker.Unreachable accepted)
  = ServiceWorker.NetworkError.
Proof.
  intros C. unfold ServiceWorker.onFetch. rewrite C.
  unfold ServiceWorker.cacheMatch. destruct (ServiceWorker.isGet req); [|reflexivity].
  destruct (JSObject.getOwn _ _) as [r|] eqn:G; [|reflexivity].
  apply getOwn_In_any in G.
  apply (cacheFrom_stored hostnameOf history []) in G; [|intros x w []].
  destruct G as [G _]. congruence.
Qed.

Lemma worker_offline_page_fails_witness :
  fst (ServiceWorker.onFetch Samples2.hostOf
         (ServiceWorker.cacheAfter Samples2.hostOf
            [ServiceWorker.MkExchange Samples2.pageRequest
               (ServiceWorker.Answers Samples2.okResponse) true;
             ServiceWorker.MkExchange Samples2.cdnRequest
               (ServiceWorker.Answers Samples2.okResponse) true])
         Samples2.pageRequest ServiceWorker.Unreachable true)
  = ServiceWorker.NetworkError.
Proof.
  apply worker_offline_page_fails. reflexivity.
Defined.



(** X23.  An upload puts its record at the head of the collection and
    selects it, whatever the store answers; the record's month is then
    among the options of the month dropdown and the record is the
    first row of the unfiltered list.  When the store is known to be
    missing or the save fails, the record is the local one, unpaid,
    and it is listed under the "unpaid" filter. *)
Theorem upload_shows_up (env : Env) (st : App.State) (data : AppView.BillData)
    (uuid : string) (now : Z) (answer : AppView.SaveOutcome) :
  let saved := AppView.savedRecord st data uuid now answer in
  let st' := AppView.step st (AppView.Uploaded data uuid now answer) in
  App.bills st' = saved :: App.bills st
  /\ App.selectedBill st' = Some saved
  /\ In (App.getBillMonthYear env saved) (AppView.availableMonths env (App.bills st'))
  /\ App.filteredBills env (App.bills st') "" App.FilterAll "all"
     = saved :: App.bills st
  /\ (App.isDbMissing st = true \/ (exists message, answer = AppView.SaveFails message) ->
      saved = AppView.localRecord data uuid now
      /\ In saved (App.filteredBills env (App.bills st') ""
                     (App.FilterOnly unpaid) "all")).
Proof.
  intros saved st'.
  assert (B : App.bills st' = saved :: App.bills st) by reflexivity.
  split; [exact B|]. split; [reflexivity|]. rewrite B. split; [|split].
  - apply (availableMonths_mem env (saved :: App.bills st)).
    exists saved. split; [left|]; reflexivity.
  - unfold App.filteredBills. apply filter_all. intros b _.
    unfold App.matchesSearch, App.matchesMonth. simpl. now rewrite includes_empty.
  - intros H.
    assert (L : saved = AppView.localRecord data uuid now).
    { unfold saved, AppView.savedRecord. destruct H as [-> | (message & ->)]; auto.
      now destruct (App.isDbMissing st). }
    split; [exact L|]. unfold App.filteredBills. apply filter_In.
    split; [left; reflexivity|].
    unfold App.matchesSearch, App.matchesStatus, App.matchesMonth. simpl.
    rewrite includes_empty, L. reflexivity.
Qed.
